(** * Retry executor of the Vortex Python SDK

    A shallow embedding of [vortex_sdk/client.py] (the two retry helpers
    [VortexClient._execute_with_retry] and
    [AsyncVortexClient._execute_with_retry_async], the retry part of the
    two constructors, and [VortexClient.delete_points] as a method built on
    the helper), of [vortex_sdk/exceptions.py] ([VortexApiError.__init__]
    and [VortexApiError.__str__]) and of the conversions of
    [vortex_sdk/conversions.py] that do not depend on the field types of
    the generated protobuf modules (the enumerations, the payload values,
    filters, search parameters and point operation statuses).

    Conventions of the embedding.
    - Millisecond and second quantities are IEEE 754 binary64 values
      ([PrimFloat.float]), the arithmetic of CPython's [float].  The
      [int]-typed settings ([initial_backoff_ms], [max_backoff_ms]) are
      embedded at once in binary64: the source converts them at their first
      mixed operation ([int * float], [int / 1000.0]) and the conversion is
      exact below 2^53.  [max_retries] stays an integer ([Z]).
    - The remote call, the jitter source [random.uniform] and the sleep
      primitives are collaborators.  A call is given by the outcome of its
      k-th invocation, the jitter source by the value of its k-th draw, and
      a sleep primitive records the duration it was asked for (what
      [time.sleep] and [asyncio.sleep] do with a negative or undefined
      duration is theirs and not modelled).  The effects are threaded
      through a small state monad over [World]. *)

From Stdlib Require Import ZArith List String Bool Lia DecimalString.
From Stdlib Require Import PrimFloat SpecFloat FloatOps.
Import ListNotations.

#[local] Set Warnings "-inexact-float".
#[local] Open Scope string_scope.

(** ** The gRPC collaborators: status codes and RPC errors *)

Module grpc.

(** [grpc.StatusCode], the enumeration of the gRPC library. *)
Inductive StatusCode : Set :=
| OK | CANCELLED | UNKNOWN | INVALID_ARGUMENT | DEADLINE_EXCEEDED
| NOT_FOUND | ALREADY_EXISTS | PERMISSION_DENIED | RESOURCE_EXHAUSTED
| FAILED_PRECONDITION | ABORTED | OUT_OF_RANGE | UNIMPLEMENTED
| INTERNAL | UNAVAILABLE | DATA_LOSS | UNAUTHENTICATED.

(** The [name] attribute of an enumeration member. *)
Definition name (c : StatusCode) : string :=
  match c with
  | OK => "OK" | CANCELLED => "CANCELLED" | UNKNOWN => "UNKNOWN"
  | INVALID_ARGUMENT => "INVALID_ARGUMENT"
  | DEADLINE_EXCEEDED => "DEADLINE_EXCEEDED"
  | NOT_FOUND => "NOT_FOUND" | ALREADY_EXISTS => "ALREADY_EXISTS"
  | PERMISSION_DENIED => "PERMISSION_DENIED"
  | RESOURCE_EXHAUSTED => "RESOURCE_EXHAUSTED"
  | FAILED_PRECONDITION => "FAILED_PRECONDITION"
  | ABORTED => "ABORTED" | OUT_OF_RANGE => "OUT_OF_RANGE"
  | UNIMPLEMENTED => "UNIMPLEMENTED" | INTERNAL => "INTERNAL"
  | UNAVAILABLE => "UNAVAILABLE" | DATA_LOSS => "DATA_LOSS"
  | UNAUTHENTICATED => "UNAUTHENTICATED"
  end.

Definition StatusCode_eq_dec (a b : StatusCode) : {a = b} + {a <> b}.
Proof. decide equality. Defined.

Definition StatusCode_eqb (a b : StatusCode) : bool :=
  if StatusCode_eq_dec a b then true else false.

(** An exception object that is an instance of [grpc.RpcError].
    [rpc_code = None] is an object without a callable [code] attribute (a
    bare [grpc.RpcError] has none), [rpc_details = None] one without a
    callable [details] attribute; [rpc_str] is [str(e)].  [rpc_is_aio]
    tells whether the object is an instance of [grpc.aio.AioRpcError], the
    subclass of [grpc.RpcError] that the calls of [grpc.aio] raise: the
    blocking helper catches every [grpc.RpcError], the suspending one only
    this subclass. *)
Record RpcError : Set := mkRpcError {
  rpc_code : option StatusCode;
  rpc_details : option string;
  rpc_str : string;
  rpc_is_aio : bool
}.

End grpc.
Import grpc.

(** Python's [x in xs] on a list of status codes. *)
Definition code_in (c : StatusCode) (xs : list StatusCode) : bool :=
  existsb (StatusCode_eqb c) xs.

(** ** [vortex_sdk/exceptions.py] *)

Module exceptions.

(** The attributes of a [VortexApiError]; [message] is the argument given to
    [Exception.__init__], that is what [super().__str__()] returns. *)
Record VortexApiError : Set := mkVortexApiError {
  message : string;
  grpc_error : option RpcError;
  status_code : option string;
  details : option string
}.

(** Truth value of an attribute that is [None] or a string. *)
Definition truthy (o : option string) : bool :=
  match o with
  | Some s => negb (s =? "")
  | None => false
  end.

(** [VortexApiError.__init__(message, grpc_error, status_code, details)]. *)
Definition VortexApiError__init__ (message : string)
    (grpc_error : option RpcError) (status_code details : option string)
  : VortexApiError :=
  match grpc_error with
  | Some e =>
      let status_code :=
        match rpc_code e with
        | Some grpc_status_code => Some (name grpc_status_code)
        | None => status_code
        end in
      let details :=
        match rpc_details e with
        | Some d => Some d
        | None => if negb (truthy details) then Some (rpc_str e) else details
        end in
      mkVortexApiError message grpc_error status_code details
  | None => mkVortexApiError message grpc_error status_code details
  end.

(** [VortexApiError.__str__]. *)
Definition VortexApiError__str__ (self : VortexApiError) : string :=
  let base_str := message self in
  let base_str :=
    match status_code self with
    | Some sc =>
        if truthy (Some sc) then base_str ++ " (Status Code: " ++ sc ++ ")"
        else base_str
    | None => base_str
    end in
  match details self with
  | Some d =>
      if truthy (Some d) then base_str ++ " Details: " ++ d else base_str
  | None => base_str
  end.

End exceptions.
Import exceptions.

(** ** Calls, results and the world *)

(** What one invocation of the wrapped callable does.  The constructors are
    the cases the handlers of the executors tell apart: a returned value, a
    [grpc.RpcError] (first handler of the blocking helper; first handler of
    the suspending helper when it is a [grpc.aio.AioRpcError], and its third
    handler otherwise), a [VortexApiError] (second handler, re-raised), any
    other [Exception] with its [str] (third handler), and an exception
    outside [Exception], which no handler catches. *)
Inductive CallOutcome (V : Type) : Type :=
| Returns (v : V)
| RaisesRpcError (e : RpcError)
| RaisesVortexApiError (err : VortexApiError)
| RaisesException (text : string)
| RaisesBaseException (text : string).
Arguments Returns {V} v.
Arguments RaisesRpcError {V} e.
Arguments RaisesVortexApiError {V} err.
Arguments RaisesException {V} text.
Arguments RaisesBaseException {V} text.

(** A callable: the outcome of its k-th invocation, counted from 0. *)
Definition Callable (V : Type) : Type := nat -> CallOutcome V.

(** An exception leaving an executor. *)
Inductive Raised : Set :=
| ApiError (err : VortexApiError)
| VortexException (msg : string)
| BaseException (text : string).

(** How an executor ends. *)
Inductive Result (V : Type) : Type :=
| Return (v : V)
| Raise (exc : Raised).
Arguments Return {V} v.
Arguments Raise {V} exc.

(** The sleep primitive that was used. *)
Inductive SleepKind : Set := Blocking | Suspending.

(** The observable effects of an execution: how often the callable and the
    jitter source were invoked, and the sleeps in the order they happened,
    each with its duration in seconds. *)
Record World : Type := mkWorld {
  call_count : nat;
  draw_count : nat;
  sleep_log : list (SleepKind * float)
}.

Definition initial_world : World := mkWorld 0 0 [].

Definition sleep_durations (w : World) : list float :=
  map snd (sleep_log w).

(** The state monad of effects. *)
Definition M (A : Type) : Type := World -> A * World.

Definition ret {A : Type} (a : A) : M A := fun w => (a, w).

Definition bind {A B : Type} (m : M A) (k : A -> M B) : M B :=
  fun w => let (a, w') := m w in k a w'.

Declare Scope retry_scope.
Delimit Scope retry_scope with retry.
Notation "x <- m ;; k" := (bind m (fun x => k))
  (at level 61, m at next level, right associativity) : retry_scope.
Notation "m ;;; k" := (bind m (fun _ => k))
  (at level 61, right associativity) : retry_scope.

(** One invocation of the callable. *)
Definition invoke {V : Type} (grpc_call : Callable V) : M (CallOutcome V) :=
  fun w => (grpc_call (call_count w),
            mkWorld (S (call_count w)) (draw_count w) (sleep_log w)).

(** [time.sleep(secs)] and [await asyncio.sleep(secs)]. *)
Definition time_sleep (secs : float) : M unit :=
  fun w => (tt, mkWorld (call_count w) (draw_count w)
                        (sleep_log w ++ [(Blocking, secs)])).

Definition asyncio_sleep (secs : float) : M unit :=
  fun w => (tt, mkWorld (call_count w) (draw_count w)
                        (sleep_log w ++ [(Suspending, secs)])).

(** Python's two-argument [min]: the second argument only when it is
    strictly smaller. *)
Definition py_min (a b : float) : float :=
  if PrimFloat.ltb b a then b else a.

(** [range(n)]. *)
Definition py_range (n : Z) : list Z :=
  map Z.of_nat (seq 0 (Z.to_nat n)).

(** [str(n)] of an integer, as an f-string renders it. *)
Definition str_int (n : Z) : string :=
  NilZero.string_of_int (Z.to_int n).

(** ** The retry attributes of a client and the two constructors *)

(** The retry attributes that [__init__] stores on [self]; the connection
    attributes play no part in the retry helpers. *)
Record Client : Type := mkClient {
  retries_enabled : bool;
  max_retries : Z;
  initial_backoff_ms : float;
  max_backoff_ms : float;
  backoff_multiplier : float;
  retry_jitter : bool;
  retryable_status_codes : list StatusCode
}.

(** [retryable_status_codes or [UNAVAILABLE, RESOURCE_EXHAUSTED]]: [None]
    and the empty list are both falsy. *)
Definition or_default_codes (arg : option (list StatusCode))
  : list StatusCode :=
  match arg with
  | Some (c :: cs) => c :: cs
  | Some [] | None => [UNAVAILABLE; RESOURCE_EXHAUSTED]
  end.

(** The jitter source: [uniform a b k] is what the k-th call of
    [random.uniform(a, b)] returns. *)
Definition JitterSource : Type := float -> float -> nat -> float.

Definition random_uniform (uniform : JitterSource) (a b : float) : M float :=
  fun w => (uniform a b (draw_count w),
            mkWorld (call_count w) (S (draw_count w)) (sleep_log w)).

(** How the [for] loop of an executor ends: by a [return] or [raise] in its
    body, or by running out of attempts, with the two loop variables as they
    stand. *)
Inductive LoopExit (V : Type) : Type :=
| Exited (r : Result V)
| Completed (last_exception : option RpcError) (current_backoff_ms : float).
Arguments Exited {V} r.
Arguments Completed {V} last_exception current_backoff_ms.

#[local] Open Scope retry_scope.
#[local] Open Scope float_scope.

(** ** [VortexClient] *)

Module VortexClient.

Definition __init__ (retries_enabled : bool) (max_retries : Z)
    (initial_backoff_ms max_backoff_ms backoff_multiplier : float)
    (retry_jitter : bool) (retryable_status_codes : option (list StatusCode))
  : Client :=
  mkClient retries_enabled max_retries initial_backoff_ms max_backoff_ms
           backoff_multiplier retry_jitter
           (or_default_codes retryable_status_codes).

Section RetryHelper.
Context {V : Type} (uniform : JitterSource).

(** The body of [for attempt in range(self.max_retries + 1)], run over the
    attempts that are left. *)
Fixpoint retry_loop (self : Client) (grpc_call : Callable V)
    (operation_name : string) (attempts : list Z)
    (last_exception : option RpcError) (current_backoff_ms : float)
  : M (LoopExit V) :=
  match attempts with
  | [] => ret (Completed last_exception current_backoff_ms)
  | attempt :: attempts =>
      outcome <- invoke grpc_call ;;
      match outcome with
      | Returns v => ret (Exited (Return v))
      | RaisesRpcError e =>
          let last_exception := Some e in
          let raise_failed :=
            ret (Exited (Raise (ApiError
              (VortexApiError__init__ ("Failed to " ++ operation_name)
                                      (Some e) None None)))) in
          match rpc_code e with
          | Some code =>
              if code_in code (retryable_status_codes self) then
                if (attempt <? max_retries self)%Z then
                  let sleep_duration_ms := current_backoff_ms in
                  sleep_duration_ms <-
                    (if retry_jitter self then
                       u <- random_uniform uniform (-0.1) 0.1 ;;
                       ret (sleep_duration_ms * (1 + u))
                     else ret sleep_duration_ms) ;;
                  time_sleep (sleep_duration_ms / 1000) ;;;
                  let current_backoff_ms :=
                    py_min (max_backoff_ms self)
                           (current_backoff_ms * backoff_multiplier self) in
                  retry_loop self grpc_call operation_name attempts
                             last_exception current_backoff_ms
                else raise_failed
              else raise_failed
          | None => raise_failed
          end
      | RaisesVortexApiError err => ret (Exited (Raise (ApiError err)))
      | RaisesException text =>
          ret (Exited (Raise (VortexException
            ("An unexpected error occurred during " ++ operation_name
             ++ ": " ++ text))))
      | RaisesBaseException text =>
          ret (Exited (Raise (BaseException text)))
      end
  end.

(** [VortexClient._execute_with_retry(grpc_call, operation_name)]. *)
Definition _execute_with_retry (self : Client) (grpc_call : Callable V)
    (operation_name : string) : M (Result V) :=
  if negb (retries_enabled self) then
    outcome <- invoke grpc_call ;;
    match outcome with
    | Returns v => ret (Return v)
    | RaisesRpcError e =>
        ret (Raise (ApiError
          (VortexApiError__init__ ("Failed to " ++ operation_name)
                                  (Some e) None None)))
    | RaisesVortexApiError err => ret (Raise (ApiError err))
    | RaisesException text =>
        ret (Raise (VortexException
          ("An unexpected error occurred during " ++ operation_name
           ++ ": " ++ text)))
    | RaisesBaseException text => ret (Raise (BaseException text))
    end
  else
    let last_exception := None in
    let current_backoff_ms := initial_backoff_ms self in
    exit <- retry_loop self grpc_call operation_name
                       (py_range (max_retries self + 1))
                       last_exception current_backoff_ms ;;
    match exit with
    | Exited r => ret r
    | Completed (Some last_exception) _ =>
        ret (Raise (ApiError
          (VortexApiError__init__
             ("Failed to " ++ operation_name ++ " after "
              ++ str_int (max_retries self) ++ " retries")
             (Some last_exception) None None)))
    | Completed None _ =>
        ret (Raise (VortexException
          ("Failed to " ++ operation_name
           ++ " after all retries, but no gRPC exception was captured.")))
    end.

End RetryHelper.

End VortexClient.

(** ** [AsyncVortexClient] *)

Module AsyncVortexClient.

Definition __init__ (retries_enabled : bool) (max_retries : Z)
    (initial_backoff_ms max_backoff_ms backoff_multiplier : float)
    (retry_jitter : bool) (retryable_status_codes : option (list StatusCode))
  : Client :=
  mkClient retries_enabled max_retries initial_backoff_ms max_backoff_ms
           backoff_multiplier retry_jitter
           (or_default_codes retryable_status_codes).

Section RetryHelper.
Context {V : Type} (uniform : JitterSource).

(** The body of [for attempt in range(self.max_retries + 1)] of the
    suspending helper; awaiting the call is one invocation of it.  The first
    handler is [except grpc.aio.AioRpcError]: a [grpc.RpcError] of another
    class falls to [except Exception]. *)
Fixpoint retry_loop_async (self : Client) (async_grpc_call : Callable V)
    (operation_name : string) (attempts : list Z)
    (last_exception : option RpcError) (current_backoff_ms : float)
  : M (LoopExit V) :=
  match attempts with
  | [] => ret (Completed last_exception current_backoff_ms)
  | attempt :: attempts =>
      outcome <- invoke async_grpc_call ;;
      match outcome with
      | Returns v => ret (Exited (Return v))
      | RaisesRpcError e =>
          if rpc_is_aio e then
            let last_exception := Some e in
            let raise_failed :=
              ret (Exited (Raise (ApiError
                (VortexApiError__init__ ("Failed to " ++ operation_name)
                                        (Some e) None None)))) in
            match rpc_code e with
            | Some code =>
                if code_in code (retryable_status_codes self) then
                  if (attempt <? max_retries self)%Z then
                    let sleep_duration_ms := current_backoff_ms in
                    sleep_duration_ms <-
                      (if retry_jitter self then
                         u <- random_uniform uniform (-0.1) 0.1 ;;
                         ret (sleep_duration_ms * (1 + u))
                       else ret sleep_duration_ms) ;;
                    asyncio_sleep (sleep_duration_ms / 1000) ;;;
                    let current_backoff_ms :=
                      py_min (max_backoff_ms self)
                             (current_backoff_ms * backoff_multiplier self) in
                    retry_loop_async self async_grpc_call operation_name
                                     attempts last_exception
                                     current_backoff_ms
                  else raise_failed
                else raise_failed
            | None => raise_failed
            end
          else
            ret (Exited (Raise (VortexException
              ("An unexpected error occurred during " ++ operation_name
               ++ ": " ++ rpc_str e))))
      | RaisesVortexApiError err => ret (Exited (Raise (ApiError err)))
      | RaisesException text =>
          ret (Exited (Raise (VortexException
            ("An unexpected error occurred during " ++ operation_name
             ++ ": " ++ text))))
      | RaisesBaseException text =>
          ret (Exited (Raise (BaseException text)))
      end
  end.

(** [AsyncVortexClient._execute_with_retry_async(async_grpc_call,
    operation_name)]. *)
Definition _execute_with_retry_async (self : Client)
    (async_grpc_call : Callable V) (operation_name : string)
  : M (Result V) :=
  if negb (retries_enabled self) then
    outcome <- invoke async_grpc_call ;;
    match outcome with
    | Returns v => ret (Return v)
    | RaisesRpcError e =>
        if rpc_is_aio e then
          ret (Raise (ApiError
            (VortexApiError__init__ ("Failed to " ++ operation_name)
                                    (Some e) None None)))
        else
          ret (Raise (VortexException
            ("An unexpected error occurred during " ++ operation_name
             ++ ": " ++ rpc_str e)))
    | RaisesVortexApiError err => ret (Raise (ApiError err))
    | RaisesException text =>
        ret (Raise (VortexException
          ("An unexpected error occurred during " ++ operation_name
           ++ ": " ++ text)))
    | RaisesBaseException text => ret (Raise (BaseException text))
    end
  else
    let last_exception := None in
    let current_backoff_ms := initial_backoff_ms self in
    exit <- retry_loop_async self async_grpc_call operation_name
                             (py_range (max_retries self + 1))
                             last_exception current_backoff_ms ;;
    match exit with
    | Exited r => ret r
    | Completed (Some last_exception) _ =>
        ret (Raise (ApiError
          (VortexApiError__init__
             ("Failed to " ++ operation_name ++ " after "
              ++ str_int (max_retries self) ++ " retries")
             (Some last_exception) None None)))
    | Completed None _ =>
        ret (Raise (VortexException
          ("Failed to " ++ operation_name
           ++ " after all retries, but no gRPC exception was captured (async).")))
    end.

End RetryHelper.

End AsyncVortexClient.

(** ** Observations used to state the properties *)

(** The world after one more invocation of the callable. *)
Definition after_call (w : World) : World :=
  mkWorld (S (call_count w)) (draw_count w) (sleep_log w).

(** The delay in milliseconds that a retry sleeps for when the stored
    backoff is [current_backoff_ms] and the next draw of the jitter source
    is the one of world [w]. *)
Definition jittered (uniform : JitterSource) (self : Client)
    (current_backoff_ms : float) (w : World) : float :=
  if retry_jitter self
  then current_backoff_ms * (1 + uniform (-0.1) 0.1 (draw_count w))
  else current_backoff_ms.

(** The world after an attempt that failed and was followed by a retry
    sleep of the given kind. *)
Definition after_retry (kind : SleepKind) (uniform : JitterSource)
    (self : Client) (current_backoff_ms : float) (w : World) : World :=
  mkWorld (S (call_count w))
          (if retry_jitter self then S (draw_count w) else draw_count w)
          (sleep_log w
           ++ [(kind, jittered uniform self current_backoff_ms w / 1000)]).

(** The stored backoff after a retry. *)
Definition next_backoff (self : Client) (current_backoff_ms : float)
  : float :=
  py_min (max_backoff_ms self)
         (current_backoff_ms * backoff_multiplier self).

(** An outcome on which an executor with budget left sleeps and retries: an
    RPC error whose code is in the retryable list of the client. *)
Definition is_retryable_failure {V : Type} (self : Client)
    (outcome : CallOutcome V) : bool :=
  match outcome with
  | RaisesRpcError e =>
      match rpc_code e with
      | Some code => code_in code (retryable_status_codes self)
      | None => false
      end
  | _ => false
  end.

(** The detail text a [VortexApiError] takes from an RPC error: what
    [details()] returns, or [str(e)] when there is no such method. *)
Definition detail_of (e : RpcError) : string :=
  match rpc_details e with
  | Some d => d
  | None => rpc_str e
  end.

(** The backoff schedule as the specification words it: the base starts at
    [initialBackoff] and each retry replaces it by
    [min(maxBackoff, base * backoffMultiplier)]; the k-th sleep lasts the
    k-th base, times [1 + uniformRandom(-0.1, 0.1)] (the k-th draw) when
    jitter is enabled, converted from milliseconds to seconds. *)
Fixpoint spec_backoff_base (self : Client) (k : nat) : float :=
  match k with
  | O => initial_backoff_ms self
  | S k =>
      py_min (max_backoff_ms self)
             (spec_backoff_base self k * backoff_multiplier self)
  end.

Definition spec_sleep_seconds (uniform : JitterSource) (self : Client)
    (k : nat) : float :=
  (if retry_jitter self
   then spec_backoff_base self k * (1 + uniform (-0.1) 0.1 k)
   else spec_backoff_base self k) / 1000.

(** Two worlds that differ at most in the kind of their sleeps. *)
Definition same_observations (w1 w2 : World) : Prop :=
  call_count w1 = call_count w2
  /\ draw_count w1 = draw_count w2
  /\ sleep_durations w1 = sleep_durations w2.

(** Every sleep of the world was of the given kind. *)
Definition all_sleeps_of (kind : SleepKind) (w : World) : Prop :=
  Forall (fun s => fst s = kind) (sleep_log w).

(** The sleeps so far are the first ones of the worded schedule, and the
    jitter source was drawn once per sleep, or never without jitter. *)
Definition on_schedule (uniform : JitterSource) (self : Client)
    (w : World) : Prop :=
  sleep_durations w
  = map (spec_sleep_seconds uniform self)
        (seq 0%nat (List.length (sleep_log w)))
  /\ draw_count w
     = if retry_jitter self then List.length (sleep_log w) else 0%nat.

(** ** Callables and settings of the test-suite

    [side_effect outcomes] is a mock whose k-th invocation has the k-th
    listed outcome (and raises [StopIteration], whose [str] is empty, once
    the list is used up); [always outcome] is a mock with one outcome for
    every invocation. *)
Definition side_effect {V : Type} (outcomes : list (CallOutcome V))
  : Callable V :=
  fun k => nth k outcomes (RaisesException EmptyString).

Definition always {V : Type} (outcome : CallOutcome V) : Callable V :=
  fun _ => outcome.

(** A jitter source patched to return the same value at every draw. *)
Definition fixed_uniform (value : float) : JitterSource :=
  fun _ _ _ => value.

(** A bare [grpc.RpcError(text)] that was given a [code] method. *)
Definition mock_rpc_error (code : StatusCode) (text : string) : RpcError :=
  mkRpcError (Some code) None text false.

(** A [grpc.aio.AioRpcError(code, ..., details=details)], whose [str] is
    [text]. *)
Definition mock_aio_rpc_error (code : StatusCode) (details text : string)
  : RpcError :=
  mkRpcError (Some code) (Some details) text true.

(** The RPC errors that the callable raises are all instances of
    [grpc.aio.AioRpcError]. *)
Definition raises_only_aio_rpc_errors {V : Type} (call : Callable V)
  : Prop :=
  forall k e, call k = RaisesRpcError e -> rpc_is_aio e = true.

#[local] Close Scope float_scope.

(** ** [vortex_sdk/models.py]: the enumerations and the models that the
    conversions below read or build *)

#[local] Set Warnings "-register-all".

Module models.

Inductive DistanceMetric : Set := COSINE | EUCLIDEAN_L2.

Inductive CollectionStatus : Set :=
| GREEN | YELLOW | RED | OPTIMIZING | CREATING.

Inductive StatusCode : Set := OK | ERROR | NOT_FOUND | INVALID_ARGUMENT.

(** A [str] as a value, a key or the [str] of an object: one that UTF-8
    can encode, given by its text, or one that holds surrogate code points
    (as [json.loads] can produce), which UTF-8 cannot encode and which a
    protobuf string field therefore refuses; the latter is given by its
    code points. *)
Inductive Str : Set :=
| Text (text : string)
| WithSurrogates (code_points : list N).

(** A value found in a payload or a filter.  [PayloadValue] is a type
    alias whose containers hold [Any]; the constructors are the cases that
    [_pydantic_value_to_grpc] tells apart by [is None] and [isinstance]:
    [None], a [bool], an [int], a [float], a [str], a [list], a [dict] (its
    [items()], keys pairwise distinct), and any other object, given by its
    [str]. *)
Inductive PayloadValue : Type :=
| PyNone
| PyBool (b : bool)
| PyInt (n : Z)
| PyFloat (x : float)
| PyStr (s : Str)
| PyList (items : list PayloadValue)
| PyDict (items : list (Str * PayloadValue))
| PyOther (str : Str).

Record Filter : Type := mkFilter {
  must_match_exact : option (list (Str * PayloadValue))
}.

Record SearchParams : Set := mkSearchParams {
  ef_search : option Z
}.

Record PointOperationStatus : Set := mkPointOperationStatus {
  point_id : string;
  status_code : StatusCode;
  error_message : option string
}.

End models.

(** A text is read as the [str] with that text. *)
Coercion models.Text : string >-> models.Str.

(** ** The protobuf messages

    The generated modules are not part of the sources; the messages are
    given with the fields and the presence ([HasField]) that the sources
    use.  A map field is the list of its entries in the order they were
    inserted; Python compares dictionaries regardless of order. *)

Module struct_pb2.

(** [google.protobuf.Value]: the member of the oneof [kind] that is set, or
    none. *)
Inductive Value : Type :=
| kind_unset
| null_value
| number_value (x : float)
| string_value (s : string)
| bool_value (b : bool)
| struct_value (fields : list (string * Value))
| list_value (values : list Value).

End struct_pb2.

Module common_pb2.

(** The enumerations of the wire.  Their values are integers; the last
    constructor of each is an integer that is none of the named values. *)
Inductive DistanceMetric : Set :=
| DISTANCE_METRIC_UNSPECIFIED | COSINE | EUCLIDEAN_L2
| DistanceMetric_other (number : Z).

Inductive StatusCode : Set :=
| STATUS_CODE_UNSPECIFIED | OK | ERROR | NOT_FOUND | INVALID_ARGUMENT
| StatusCode_other (number : Z).

Record Filter : Type := mkFilter {
  must_match_exact : list (string * struct_pb2.Value)
}.

(** [ef_search] is an optional [uint32], as the comment in
    [pydantic_to_grpc_search_params] says. *)
Record SearchParams : Set := mkSearchParams {
  ef_search : option Z
}.

Record PointOperationStatus : Set := mkPointOperationStatus {
  point_id : string;
  status_code : StatusCode;
  error_message : option string
}.

End common_pb2.

Module collections_service_pb2.

Inductive CollectionStatus : Set :=
| COLLECTION_STATUS_UNSPECIFIED
| GREEN | YELLOW | RED | OPTIMIZING | CREATING
| CollectionStatus_other (number : Z).

End collections_service_pb2.

Module points_service_pb2.

Record DeletePointsRequest : Set := mkDeletePointsRequest {
  collection_name : string;
  ids : list string;
  wait_flush : option bool
}.

Record DeletePointsResponse : Set := mkDeletePointsResponse {
  statuses : list common_pb2.PointOperationStatus;
  overall_error : string
}.

End points_service_pb2.

(** ** [vortex_sdk/conversions.py] *)

(** An exception raised inside a conversion: [float(n)] of an integer
    beyond the range of a double, the assignment of an integer outside
    [uint32] to a field of that type, or the use of a [str] that UTF-8
    cannot encode as the value of a protobuf string field or as the key of
    a protobuf map. *)
Inductive PyException : Set :=
| OverflowError
| ValueError_out_of_range (n : Z)
| UnicodeEncodeError.

Inductive PyResult (A : Type) : Type :=
| Ok (a : A)
| Throws (e : PyException).
Arguments Ok {A} a.
Arguments Throws {A} e.

(** A comprehension or loop whose body may raise: the items in order, up
    to the first exception. *)
Definition try_map {A B : Type} (f : A -> PyResult B)
  : list A -> PyResult (list B) :=
  fix go (xs : list A) : PyResult (list B) :=
    match xs with
    | [] => Ok []
    | x :: xs =>
        match f x with
        | Ok y =>
            match go xs with
            | Ok ys => Ok (y :: ys)
            | Throws e => Throws e
            end
        | Throws e => Throws e
        end
    end.

(** [float(n)] of an [int]: the nearest double, ties to even, and
    [OverflowError] when that is beyond the largest double. *)
Definition float_of_int (n : Z) : PyResult float :=
  let x := SF2Prim (binary_normalize prec emax n 0 false) in
  if PrimFloat.is_infinity x then Throws OverflowError else Ok x.

(** A [str] given to a protobuf string field or used as the key of a
    protobuf map: its text, or [UnicodeEncodeError]. *)
Definition as_protobuf_string (s : models.Str) : PyResult string :=
  match s with
  | models.Text text => Ok text
  | models.WithSurrogates _ => Throws UnicodeEncodeError
  end.

Module conversions.

Import struct_pb2.

(** [_PYDANTIC_TO_GRPC_DISTANCE_METRIC_MAP.get(metric,
    DISTANCE_METRIC_UNSPECIFIED)]: both members of the enumeration are keys
    of the dictionary, so the default is not reached for a member. *)
Definition pydantic_to_grpc_distance_metric (metric : models.DistanceMetric)
  : common_pb2.DistanceMetric :=
  match metric with
  | models.COSINE => common_pb2.COSINE
  | models.EUCLIDEAN_L2 => common_pb2.EUCLIDEAN_L2
  end.

(** A lookup in the inverted dictionary, to which
    [DISTANCE_METRIC_UNSPECIFIED] was added, with [COSINE] as the default
    of [get]. *)
Definition grpc_to_pydantic_distance_metric
    (metric_pb : common_pb2.DistanceMetric) : models.DistanceMetric :=
  match metric_pb with
  | common_pb2.COSINE => models.COSINE
  | common_pb2.EUCLIDEAN_L2 => models.EUCLIDEAN_L2
  | common_pb2.DISTANCE_METRIC_UNSPECIFIED => models.COSINE
  | common_pb2.DistanceMetric_other _ => models.COSINE
  end.

(** [_GRPC_TO_PYDANTIC_COLLECTION_STATUS_MAP.get(status_pb, GREEN)]. *)
Definition grpc_to_pydantic_collection_status
    (status_pb : collections_service_pb2.CollectionStatus)
  : models.CollectionStatus :=
  match status_pb with
  | collections_service_pb2.GREEN => models.GREEN
  | collections_service_pb2.YELLOW => models.YELLOW
  | collections_service_pb2.RED => models.RED
  | collections_service_pb2.OPTIMIZING => models.OPTIMIZING
  | collections_service_pb2.CREATING => models.CREATING
  | collections_service_pb2.COLLECTION_STATUS_UNSPECIFIED => models.GREEN
  | collections_service_pb2.CollectionStatus_other _ => models.GREEN
  end.

(** [_GRPC_TO_PYDANTIC_STATUS_CODE_MAP.get(status_code_pb, ERROR)]. *)
Definition grpc_to_pydantic_status_code
    (status_code_pb : common_pb2.StatusCode) : models.StatusCode :=
  match status_code_pb with
  | common_pb2.OK => models.OK
  | common_pb2.ERROR => models.ERROR
  | common_pb2.NOT_FOUND => models.NOT_FOUND
  | common_pb2.INVALID_ARGUMENT => models.INVALID_ARGUMENT
  | common_pb2.STATUS_CODE_UNSPECIFIED => models.ERROR
  | common_pb2.StatusCode_other _ => models.ERROR
  end.

Fixpoint _grpc_value_to_pydantic (grpc_val : Value) : models.PayloadValue :=
  match grpc_val with
  | null_value => models.PyNone
  | number_value x => models.PyFloat x
  | string_value s => models.PyStr (models.Text s)
  | bool_value b => models.PyBool b
  | struct_value fields =>
      models.PyDict
        (map (fun kv =>
                (models.Text (fst kv), _grpc_value_to_pydantic (snd kv)))
             fields)
  | list_value values => models.PyList (map _grpc_value_to_pydantic values)
  | kind_unset => models.PyNone
  end.

(** In the [list] and [dict] branches the message is only touched inside
    the loop: an empty container leaves every member of [kind] unset.  In
    the [dict] branch [fields[k]] is evaluated before the value of the entry
    is converted. *)
Fixpoint _pydantic_value_to_grpc (pydantic_val : models.PayloadValue)
  : PyResult Value :=
  match pydantic_val with
  | models.PyNone => Ok null_value
  | models.PyBool b => Ok (bool_value b)
  | models.PyInt n =>
      match float_of_int n with
      | Ok x => Ok (number_value x)
      | Throws e => Throws e
      end
  | models.PyFloat x => Ok (number_value x)
  | models.PyStr s =>
      match as_protobuf_string s with
      | Ok text => Ok (string_value text)
      | Throws e => Throws e
      end
  | models.PyList [] => Ok kind_unset
  | models.PyList items =>
      match try_map _pydantic_value_to_grpc items with
      | Ok values => Ok (list_value values)
      | Throws e => Throws e
      end
  | models.PyDict [] => Ok kind_unset
  | models.PyDict items =>
      match try_map
              (fun kv =>
                 match as_protobuf_string (fst kv) with
                 | Ok k =>
                     match _pydantic_value_to_grpc (snd kv) with
                     | Ok v => Ok (k, v)
                     | Throws e => Throws e
                     end
                 | Throws e => Throws e
                 end) items with
      | Ok fields => Ok (struct_value fields)
      | Throws e => Throws e
      end
  | models.PyOther str =>
      match as_protobuf_string str with
      | Ok text => Ok (string_value text)
      | Throws e => Throws e
      end
  end.

Definition pydantic_to_grpc_filter (filter_model : option models.Filter)
  : PyResult (option common_pb2.Filter) :=
  match filter_model with
  | None => Ok None
  | Some filter_model =>
      match models.must_match_exact filter_model with
      | None => Ok None
      | Some [] => Ok None
      | Some items =>
          match try_map
                  (fun kv =>
                     match as_protobuf_string (fst kv) with
                     | Ok k =>
                         match _pydantic_value_to_grpc (snd kv) with
                         | Ok v => Ok (k, v)
                         | Throws e => Throws e
                         end
                     | Throws e => Throws e
                     end) items with
          | Ok entries => Ok (Some (common_pb2.mkFilter entries))
          | Throws e => Throws e
          end
      end
  end.

Definition grpc_to_pydantic_point_operation_status
    (status_pb : common_pb2.PointOperationStatus)
  : models.PointOperationStatus :=
  models.mkPointOperationStatus
    (common_pb2.point_id status_pb)
    (grpc_to_pydantic_status_code (common_pb2.status_code status_pb))
    (common_pb2.error_message status_pb).

(** The assignment to the [uint32] field raises for an integer outside
    its range; a message is returned only when [HasField("ef_search")]. *)
Definition pydantic_to_grpc_search_params (params : option models.SearchParams)
  : PyResult (option common_pb2.SearchParams) :=
  match params with
  | None => Ok None
  | Some params =>
      match models.ef_search params with
      | Some n =>
          if ((0 <=? n) && (n <? 2 ^ 32))%Z
          then Ok (Some (common_pb2.mkSearchParams (Some n)))
          else Throws (ValueError_out_of_range n)
      | None => Ok None
      end
  end.

End conversions.

(** The conversion of a dictionary entry in the loops over [items()]. *)
Abbreviation entry_to_grpc :=
  (fun kv : models.Str * models.PayloadValue =>
     match as_protobuf_string (fst kv) with
     | Ok k =>
         match conversions._pydantic_value_to_grpc (snd kv) with
         | Ok v => Ok (k, v)
         | Throws e => Throws e
         end
     | Throws e => Throws e
     end).

(** ** A method of [VortexClient] built on the retry helper *)

(** What a client method raises: [VortexConnectionError(msg)]; an
    exception of the retry helper, which the handlers of the method let
    through as it is; or the
    [VortexApiError(message, status_code=common_pb2.StatusCode.ERROR)] that
    reports the [overall_error] of a response. *)
Inductive MethodRaised : Set :=
| VortexConnectionError (msg : string)
| FromRetryHelper (exc : Raised)
| OverallError (message : string).

Inductive MethodResult (A : Type) : Type :=
| MethodReturn (a : A)
| MethodRaise (exc : MethodRaised).
Arguments MethodReturn {A} a.
Arguments MethodRaise {A} exc.

(** The connection attributes that the method reads: [self.timeout] and
    [self._points_stub], here its [DeletePoints] method when the stub is
    there. *)
Record Connection : Type := mkConnection {
  timeout : option float;
  _points_stub :
    option (points_service_pb2.DeletePointsRequest -> option float
            -> Callable points_service_pb2.DeletePointsResponse)
}.

Definition delete_points (uniform : JitterSource) (self : Client)
    (connection : Connection) (collection_name : string)
    (ids : list string) (wait_flush : option bool)
  : M (MethodResult (list models.PointOperationStatus)) :=
  match _points_stub connection with
  | None => ret (MethodRaise (VortexConnectionError "Client not connected."))
  | Some DeletePoints =>
      let request :=
        points_service_pb2.mkDeletePointsRequest collection_name ids
                                                 wait_flush in
      (response <-
         VortexClient._execute_with_retry uniform self
           (DeletePoints request (timeout connection))
           ("delete points from '" ++ collection_name ++ "'") ;;
       match response with
       | Return response =>
           if negb (points_service_pb2.overall_error response =? "")
           then ret (MethodRaise (OverallError
                  ("Overall error during delete: "
                   ++ points_service_pb2.overall_error response)))
           else ret (MethodReturn
                  (map conversions.grpc_to_pydantic_point_operation_status
                       (points_service_pb2.statuses response)))
       | Raise exc => ret (MethodRaise (FromRetryHelper exc))
       end)%retry
  end.

(** What one round trip through [_pydantic_value_to_grpc] and
    [_grpc_value_to_pydantic] does to a value: an integer becomes the
    float it converts to, an empty list or dictionary becomes [None], an
    object of another type becomes its [str]; the rest is kept. *)
Fixpoint after_round_trip (v : models.PayloadValue) : models.PayloadValue :=
  match v with
  | models.PyInt n =>
      models.PyFloat (SF2Prim (binary_normalize prec emax n 0 false))
  | models.PyList [] => models.PyNone
  | models.PyList items => models.PyList (map after_round_trip items)
  | models.PyDict [] => models.PyNone
  | models.PyDict items =>
      models.PyDict (map (fun kv => (fst kv, after_round_trip (snd kv))) items)
  | models.PyOther str => models.PyStr str
  | _ => v
  end.






(** A [Value] whose every [kind] is set and whose structs and lists are
    not empty, at any depth. *)
Fixpoint populated (g : struct_pb2.Value) : bool :=
  match g with
  | struct_pb2.kind_unset => false
  | struct_pb2.struct_value [] | struct_pb2.list_value [] => false
  | struct_pb2.struct_value fields =>
      forallb (fun kv => populated (snd kv)) fields
  | struct_pb2.list_value values => forallb populated values
  | _ => true
  end.

(** * Properties *)

(** ** Strings *)

Lemma append_assoc (a b c : string) : (a ++ b) ++ c = a ++ (b ++ c).
Proof. induction a as [|ch a IH]; simpl; [reflexivity | now rewrite IH]. Qed.

Lemma length_append (a b : string) :
  String.length (a ++ b) = String.length a + String.length b.
Proof. induction a as [|ch a IH]; simpl; [reflexivity | now rewrite IH]. Qed.

Lemma append_longer_neq (a b : string) : b <> "" -> a <> a ++ b.
Proof.
  intros Hb Heq. apply (f_equal String.length) in Heq.
  rewrite length_append in Heq.
  destruct b as [|ch b]; [now apply Hb | simpl in Heq; lia].
Qed.

Lemma truthy_nonempty (s : string) : s <> "" -> truthy (Some s) = true.
Proof.
  intros Hs. unfold truthy. apply negb_true_iff. now apply String.eqb_neq.
Qed.

Lemma name_nonempty (c : StatusCode) : name c <> "".
Proof. destruct c; discriminate. Qed.

(** ** Attempts *)

Lemma py_range_nonpositive (n : Z) : (n <= 0)%Z -> py_range n = [].
Proof.
  intros Hn. unfold py_range.
  now replace (Z.to_nat n) with 0 by lia.
Qed.

Lemma py_range_split (n : Z) (k : nat) :
  (0 <= n)%Z -> k <= Z.to_nat n ->
  py_range (n + 1)
  = (map Z.of_nat (seq 0 k)
     ++ Z.of_nat k :: map Z.of_nat (seq (S k) (Z.to_nat n - k)))%list.
Proof.
  intros Hn Hk. unfold py_range.
  replace (Z.to_nat (n + 1)) with (k + S (Z.to_nat n - k)) by lia.
  rewrite seq_app, map_app. reflexivity.
Qed.

(** ** The constructors *)

Lemma or_default_codes_nonempty (arg : option (list StatusCode)) :
  or_default_codes arg <> [].
Proof. destruct arg as [[|c cs]|]; discriminate. Qed.

(** ** Equations of the blocking loop *)

(** One iteration of the blocking loop, by the outcome of the invocation. *)
Lemma retry_loop_unfold {V : Type} (uniform : JitterSource) (self : Client)
    (call : Callable V) (operation_name : string) attempt rest last cb w :
  VortexClient.retry_loop uniform self call operation_name
    (attempt :: rest) last cb w
  = match call (call_count w) with
    | Returns v => (Exited (Return v), after_call w)
    | RaisesRpcError e =>
        if is_retryable_failure self (RaisesRpcError (V:=V) e)
           && (attempt <? max_retries self)%Z
        then VortexClient.retry_loop uniform self call operation_name
               rest (Some e) (next_backoff self cb)
               (after_retry Blocking uniform self cb w)
        else (Exited (Raise (ApiError
                (VortexApiError__init__ ("Failed to " ++ operation_name)
                                        (Some e) None None))),
              after_call w)
    | RaisesVortexApiError err => (Exited (Raise (ApiError err)), after_call w)
    | RaisesException text =>
        (Exited (Raise (VortexException
           ("An unexpected error occurred during " ++ operation_name
            ++ ": " ++ text))), after_call w)
    | RaisesBaseException text =>
        (Exited (Raise (BaseException text)), after_call w)
    end.
Proof.
  cbn [VortexClient.retry_loop is_retryable_failure].
  unfold bind at 1, invoke.
  destruct (call (call_count w)) as [v|e|err|text|text]; try reflexivity.
  destruct (rpc_code e) as [code|]; [|reflexivity].
  destruct (code_in code (retryable_status_codes self)); [|reflexivity].
  cbn [andb]. destruct (attempt <? max_retries self)%Z; [|reflexivity].
  unfold after_retry, jittered, next_backoff.
  destruct (retry_jitter self); reflexivity.
Qed.

Section BlockingLoop.
Context {V : Type} (uniform : JitterSource) (self : Client)
        (grpc_call : Callable V) (operation_name : string).

#[local] Abbreviation loop :=
  (VortexClient.retry_loop uniform self grpc_call operation_name).

Lemma retry_loop_returns attempt rest last cb w v :
  grpc_call (call_count w) = Returns v ->
  loop (attempt :: rest) last cb w = (Exited (Return v), after_call w).
Proof.
  intros Hc. now rewrite retry_loop_unfold, Hc.
Qed.

Lemma retry_loop_api_error attempt rest last cb w err :
  grpc_call (call_count w) = RaisesVortexApiError err ->
  loop (attempt :: rest) last cb w
  = (Exited (Raise (ApiError err)), after_call w).
Proof.
  intros Hc. now rewrite retry_loop_unfold, Hc.
Qed.

Lemma retry_loop_exception attempt rest last cb w text :
  grpc_call (call_count w) = RaisesException text ->
  loop (attempt :: rest) last cb w
  = (Exited (Raise (VortexException
       ("An unexpected error occurred during " ++ operation_name
        ++ ": " ++ text))), after_call w).
Proof.
  intros Hc. now rewrite retry_loop_unfold, Hc.
Qed.

Lemma retry_loop_base_exception attempt rest last cb w text :
  grpc_call (call_count w) = RaisesBaseException text ->
  loop (attempt :: rest) last cb w
  = (Exited (Raise (BaseException text)), after_call w).
Proof.
  intros Hc. now rewrite retry_loop_unfold, Hc.
Qed.

(** A failure that is not retryable, or that comes when the budget is
    used up, leaves the loop through the [raise] that ends the handler. *)
Lemma retry_loop_fails attempt rest last cb w e :
  grpc_call (call_count w) = RaisesRpcError e ->
  is_retryable_failure self (RaisesRpcError (V:=V) e)
    && (attempt <? max_retries self)%Z = false ->
  loop (attempt :: rest) last cb w
  = (Exited (Raise (ApiError
       (VortexApiError__init__ ("Failed to " ++ operation_name)
                               (Some e) None None))), after_call w).
Proof.
  intros Hc Hno. now rewrite retry_loop_unfold, Hc, Hno.
Qed.

(** A retryable failure with budget left: one sleep of the jittered,
    uncapped current backoff, then the loop goes on with the capped
    product as the stored backoff. *)
Lemma retry_loop_retries attempt rest last cb w e :
  grpc_call (call_count w) = RaisesRpcError e ->
  is_retryable_failure self (RaisesRpcError (V:=V) e) = true ->
  (attempt < max_retries self)%Z ->
  loop (attempt :: rest) last cb w
  = loop rest (Some e) (next_backoff self cb)
         (after_retry Blocking uniform self cb w).
Proof.
  intros Hc Hre Hlt. apply Z.ltb_lt in Hlt.
  now rewrite retry_loop_unfold, Hc, Hre, Hlt.
Qed.

(** Every iteration either leaves the loop, having invoked the callable
    once more and nothing else, or it is a retry. *)
Lemma retry_loop_cons_cases attempt rest last cb w :
  (exists r, loop (attempt :: rest) last cb w = (Exited r, after_call w))
  \/ (exists e,
        grpc_call (call_count w) = RaisesRpcError e
        /\ is_retryable_failure self (RaisesRpcError (V:=V) e) = true
        /\ (attempt < max_retries self)%Z
        /\ loop (attempt :: rest) last cb w
           = loop rest (Some e) (next_backoff self cb)
                  (after_retry Blocking uniform self cb w)).
Proof.
  destruct (grpc_call (call_count w)) as [v|e|err|text|text] eqn:Hc.
  - left. eexists. apply retry_loop_returns; eassumption.
  - destruct (is_retryable_failure self (RaisesRpcError (V:=V) e)
              && (attempt <? max_retries self)%Z) eqn:Hre.
    + apply andb_true_iff in Hre as [Hre Hlt]. apply Z.ltb_lt in Hlt.
      right. exists e. repeat split; try assumption.
      now apply retry_loop_retries.
    + left. eexists. apply retry_loop_fails; eassumption.
  - left. eexists. apply retry_loop_api_error; eassumption.
  - left. eexists. apply retry_loop_exception; eassumption.
  - left. eexists. apply retry_loop_base_exception; eassumption.
Qed.

(** Over attempts that end with index [max_retries], the loop leaves through
    its body. *)
Lemma retry_loop_exits len : forall start last cb w,
  Z.of_nat (start + len) = max_retries self ->
  exists r w',
    loop (map Z.of_nat (seq start (S len))) last cb w = (Exited r, w').
Proof.
  induction len as [|len IH]; intros start last cb w Hend;
    cbn [seq map];
    match goal with
    | |- context [loop (?a :: ?rest)] =>
        destruct (retry_loop_cons_cases a rest last cb w)
          as [[r Hr]|(e & _ & _ & Hlt & Hr)]
    end;
    try (exists r; eexists; exact Hr).
  - lia.
  - rewrite Hr. apply IH. lia.
Qed.

(** A run of [k] retryable failures with budget left is [k] retries: [k]
    invocations and [k] sleeps, and the loop goes on with what is left. *)
Lemma retry_loop_retryable_prefix k : forall start rest last cb w,
  (forall j, j < k ->
     is_retryable_failure self (grpc_call (call_count w + j)) = true) ->
  (Z.of_nat (start + k) <= max_retries self)%Z ->
  exists last' cb' w',
    loop (map Z.of_nat (seq start k) ++ rest)%list last cb w
    = loop rest last' cb' w'
    /\ call_count w' = call_count w + k
    /\ List.length (sleep_log w') = List.length (sleep_log w) + k.
Proof.
  induction k as [|k IH]; intros start rest last cb w Hall Hle.
  - exists last, cb, w. cbn. repeat split; lia.
  - cbn [seq map app].
    pose proof (Hall 0 ltac:(lia)) as H0. rewrite Nat.add_0_r in H0.
    destruct (grpc_call (call_count w)) as [v|e|err|text|text] eqn:Hc;
      try discriminate H0.
    rewrite (retry_loop_retries _ _ _ _ _ e Hc H0) by lia.
    destruct (IH (S start) rest (Some e) (next_backoff self cb)
                 (after_retry Blocking uniform self cb w))
      as (last' & cb' & w' & Heq & Hcalls & Hsleeps).
    + intros j Hj. cbn [after_retry call_count].
      replace (S (call_count w) + j) with (call_count w + S j) by lia.
      apply Hall. lia.
    + lia.
    + exists last', cb', w'. rewrite Heq. repeat split.
      * rewrite Hcalls. cbn. lia.
      * rewrite Hsleeps. cbn [after_retry sleep_log].
        rewrite length_app. cbn. lia.
Qed.

End BlockingLoop.

(** ** The sleeps of the blocking loop follow the schedule *)

Section Schedule.
Context {V : Type} (uniform : JitterSource) (self : Client)
        (grpc_call : Callable V) (operation_name : string).

Lemma on_schedule_after_retry kind w :
  on_schedule uniform self w ->
  on_schedule uniform self (after_retry kind uniform self
                 (spec_backoff_base self (List.length (sleep_log w))) w).
Proof.
  intros [Hs Hd]. unfold on_schedule, sleep_durations in *.
  cbn [after_retry sleep_log draw_count].
  rewrite length_app, Nat.add_comm. cbn [List.length Nat.add].
  rewrite seq_S, !map_app, <- Hs. cbn [map snd Nat.add].
  unfold jittered, spec_sleep_seconds. rewrite Hd.
  destruct (retry_jitter self); split; reflexivity.
Qed.

Lemma retry_loop_on_schedule attempts : forall last w,
  on_schedule uniform self w ->
  on_schedule uniform self
    (snd (VortexClient.retry_loop uniform self grpc_call operation_name
            attempts last
            (spec_backoff_base self (List.length (sleep_log w))) w)).
Proof.
  induction attempts as [|attempt rest IH]; intros last w Hw.
  - exact Hw.
  - destruct (retry_loop_cons_cases uniform self grpc_call operation_name
                attempt rest last
                (spec_backoff_base self (List.length (sleep_log w))) w)
      as [[r Hr]|(e & _ & _ & _ & Hr)]; rewrite Hr.
    + exact Hw.
    + pose proof (on_schedule_after_retry Blocking w Hw) as Hw'.
      specialize (IH (Some e) _ Hw').
      replace (next_backoff self
                 (spec_backoff_base self (List.length (sleep_log w))))
        with (spec_backoff_base self
                (List.length
                   (sleep_log
                      (after_retry Blocking uniform self
                         (spec_backoff_base self
                            (List.length (sleep_log w))) w)))).
      * exact IH.
      * cbn [after_retry sleep_log]. rewrite length_app, Nat.add_comm.
        reflexivity.
Qed.

(** The blocking loop only ever sleeps with [time.sleep]. *)
Lemma retry_loop_blocking attempts : forall last cb w,
  all_sleeps_of Blocking w ->
  all_sleeps_of Blocking
    (snd (VortexClient.retry_loop uniform self grpc_call operation_name
            attempts last cb w)).
Proof.
  induction attempts as [|attempt rest IH]; intros last cb w Hw.
  - exact Hw.
  - destruct (retry_loop_cons_cases uniform self grpc_call operation_name
                attempt rest last cb w)
      as [[r Hr]|(e & _ & _ & _ & Hr)]; rewrite Hr.
    + exact Hw.
    + apply IH. unfold all_sleeps_of in *. cbn [after_retry sleep_log].
      apply Forall_app. split; [exact Hw | now repeat constructor].
Qed.

End Schedule.

(** ** The two loops agree *)

(** One iteration of the suspending loop, by the outcome of the invocation. *)
Lemma retry_loop_async_unfold {V : Type} (uniform : JitterSource) (self : Client)
    (call : Callable V) (operation_name : string) attempt rest last cb w :
  AsyncVortexClient.retry_loop_async uniform self call operation_name
    (attempt :: rest) last cb w
  = match call (call_count w) with
    | Returns v => (Exited (Return v), after_call w)
    | RaisesRpcError e =>
        if rpc_is_aio e then
          if is_retryable_failure self (RaisesRpcError (V:=V) e)
             && (attempt <? max_retries self)%Z
          then AsyncVortexClient.retry_loop_async uniform self call
                 operation_name rest (Some e) (next_backoff self cb)
                 (after_retry Suspending uniform self cb w)
          else (Exited (Raise (ApiError
                  (VortexApiError__init__ ("Failed to " ++ operation_name)
                                          (Some e) None None))),
                after_call w)
        else
          (Exited (Raise (VortexException
             ("An unexpected error occurred during " ++ operation_name
              ++ ": " ++ rpc_str e))), after_call w)
    | RaisesVortexApiError err => (Exited (Raise (ApiError err)), after_call w)
    | RaisesException text =>
        (Exited (Raise (VortexException
           ("An unexpected error occurred during " ++ operation_name
            ++ ": " ++ text))), after_call w)
    | RaisesBaseException text =>
        (Exited (Raise (BaseException text)), after_call w)
    end.
Proof.
  cbn [AsyncVortexClient.retry_loop_async is_retryable_failure].
  unfold bind at 1, invoke.
  destruct (call (call_count w)) as [v|e|err|text|text]; try reflexivity.
  destruct (rpc_is_aio e); [|reflexivity].
  destruct (rpc_code e) as [code|]; [|reflexivity].
  destruct (code_in code (retryable_status_codes self)); [|reflexivity].
  cbn [andb]. destruct (attempt <? max_retries self)%Z; [|reflexivity].
  unfold after_retry, jittered, next_backoff.
  destruct (retry_jitter self); reflexivity.
Qed.

Section Agreement.
Context {V : Type} (uniform : JitterSource) (self : Client)
        (call : Callable V) (operation_name : string).

Lemma same_observations_after_call w1 w2 :
  same_observations w1 w2 ->
  same_observations (after_call w1) (after_call w2).
Proof.
  intros (Hc & Hd & Hs). unfold same_observations, sleep_durations in *.
  cbn. now rewrite Hc, Hd, Hs.
Qed.

(** On a callable whose RPC errors are all [grpc.aio.AioRpcError], the
    suspending loop makes the decisions of the blocking one: from worlds
    with the same observations they leave the same way, after the same
    invocations, draws and sleep durations; the suspending loop only ever
    sleeps with [asyncio.sleep]. *)
Lemma retry_loops_agree attempts : forall last cb w1 w2,
  raises_only_aio_rpc_errors call ->
  same_observations w1 w2 ->
  all_sleeps_of Suspending w2 ->
  let sync :=
    VortexClient.retry_loop uniform self call operation_name
                            attempts last cb w1 in
  let async :=
    AsyncVortexClient.retry_loop_async uniform self call operation_name
                                       attempts last cb w2 in
  fst sync = fst async
  /\ same_observations (snd sync) (snd async)
  /\ all_sleeps_of Suspending (snd async).
Proof.
  induction attempts as [|attempt rest IH];
    intros last cb w1 w2 Haio Hobs Hk.
  - cbn. auto.
  - pose proof Hobs as (Hc & Hd & Hs).
    pose proof (same_observations_after_call _ _ Hobs) as Hobs'.
    cbv zeta. rewrite retry_loop_unfold, retry_loop_async_unfold, Hc.
    destruct (call (call_count w2)) as [v|e|err|text|text] eqn:Hcall;
      try (repeat split; solve [apply Hobs' | exact Hk]).
    rewrite (Haio _ _ Hcall).
    destruct (is_retryable_failure self (RaisesRpcError (V:=V) e)
              && (attempt <? max_retries self)%Z);
      [|repeat split; solve [apply Hobs' | exact Hk]].
    apply IH; [exact Haio | |].
    + unfold same_observations, sleep_durations, after_retry, jittered in *.
      cbn [call_count draw_count sleep_log].
      now rewrite !map_app, Hc, Hd, Hs.
    + unfold all_sleeps_of in *. cbn [after_retry sleep_log].
      apply Forall_app. split; [exact Hk | now repeat constructor].
Qed.

End Agreement.

(** ** Equations of the blocking executor *)

Section BlockingExecutor.
Context {V : Type} (uniform : JitterSource) (self : Client)
        (grpc_call : Callable V) (operation_name : string).

Lemma execute_disabled w :
  retries_enabled self = false ->
  VortexClient._execute_with_retry uniform self grpc_call operation_name w
  = (match grpc_call (call_count w) with
     | Returns v => Return v
     | RaisesRpcError e =>
         Raise (ApiError
           (VortexApiError__init__ ("Failed to " ++ operation_name)
                                   (Some e) None None))
     | RaisesVortexApiError err => Raise (ApiError err)
     | RaisesException text =>
         Raise (VortexException
           ("An unexpected error occurred during " ++ operation_name
            ++ ": " ++ text))
     | RaisesBaseException text => Raise (BaseException text)
     end, after_call w).
Proof.
  intros Hoff. unfold VortexClient._execute_with_retry. rewrite Hoff.
  cbn [negb]. unfold bind, invoke.
  destruct (grpc_call (call_count w)); reflexivity.
Qed.

(** With retries enabled, an exit in the loop body is the end of the
    executor. *)
Lemma execute_exited w r w' :
  retries_enabled self = true ->
  VortexClient.retry_loop uniform self grpc_call operation_name
    (py_range (max_retries self + 1)) None (initial_backoff_ms self) w
  = (Exited r, w') ->
  VortexClient._execute_with_retry uniform self grpc_call operation_name w
  = (r, w').
Proof.
  intros Hon Hloop. unfold VortexClient._execute_with_retry. rewrite Hon.
  cbn [negb]. unfold bind at 1. now rewrite Hloop.
Qed.

Lemma execute_in_loop_world w :
  retries_enabled self = true ->
  snd (VortexClient._execute_with_retry uniform self grpc_call
         operation_name w)
  = snd (VortexClient.retry_loop uniform self grpc_call operation_name
           (py_range (max_retries self + 1)) None
           (initial_backoff_ms self) w).
Proof.
  intros Hon. unfold VortexClient._execute_with_retry. rewrite Hon.
  cbn [negb]. unfold bind at 1.
  destruct (VortexClient.retry_loop _ _ _ _ _ _ _ w) as [[r|[e|] cb] w'];
    reflexivity.
Qed.

End BlockingExecutor.

Lemma code_in_spec (c : StatusCode) (xs : list StatusCode) :
  code_in c xs = true <-> In c xs.
Proof.
  unfold code_in. rewrite existsb_exists. split.
  - intros (x & Hx & Heq). unfold StatusCode_eqb in Heq.
    destruct (StatusCode_eq_dec c x); [now subst | discriminate].
  - intros Hin. exists c. split; [assumption|].
    unfold StatusCode_eqb. now destruct (StatusCode_eq_dec c c).
Qed.

Lemma not_retryable_when_code_absent {V : Type} (self : Client)
    (e : RpcError) :
  (forall code, rpc_code e = Some code ->
                ~ In code (retryable_status_codes self)) ->
  is_retryable_failure self (RaisesRpcError (V:=V) e) = false.
Proof.
  intros Habs. cbn. destruct (rpc_code e) as [code|]; [|reflexivity].
  apply not_true_is_false. intros Hin. apply code_in_spec in Hin.
  now apply (Habs code).
Qed.

(** An exit in the body of the blocking loop is never the error of the
    fallback after the loop. *)
Lemma retry_loop_exit_not_fallback {V : Type} (uniform : JitterSource)
    (self : Client) (grpc_call : Callable V) (operation_name : string)
    (tail : string) attempts :
  forall last cb w r w',
    VortexClient.retry_loop uniform self grpc_call operation_name
                            attempts last cb w = (Exited r, w') ->
    r <> Raise (VortexException ("Failed to " ++ operation_name ++ tail)).
Proof.
  induction attempts as [|attempt rest IH]; intros last cb w r w' Hloop.
  - discriminate Hloop.
  - rewrite retry_loop_unfold in Hloop.
    destruct (grpc_call (call_count w)) as [v|e|err|text|text].
    + injection Hloop as <- _. discriminate.
    + destruct (is_retryable_failure self (RaisesRpcError (V:=V) e)
                && (attempt <? max_retries self)%Z).
      * now apply IH in Hloop.
      * injection Hloop as <- _. discriminate.
    + injection Hloop as <- _. discriminate.
    + injection Hloop as <- _. cbn. discriminate.
    + injection Hloop as <- _. discriminate.
Qed.

(** ** The error built from an RPC error *)

Lemma api_error_of_rpc_error (msg : string) (e : RpcError) :
  VortexApiError__init__ msg (Some e) None None
  = mkVortexApiError msg (Some e) (option_map name (rpc_code e))
                     (Some (detail_of e)).
Proof.
  unfold VortexApiError__init__, detail_of.
  destruct (rpc_code e), (rpc_details e); reflexivity.
Qed.

(** The rendering of such an error when the RPC error has a code and a
    detail text that is not empty. *)
Lemma str_of_api_error (msg : string) (e : RpcError) (code : StatusCode) :
  rpc_code e = Some code ->
  detail_of e <> "" ->
  VortexApiError__str__ (VortexApiError__init__ msg (Some e) None None)
  = msg ++ " (Status Code: " ++ name code ++ ") Details: " ++ detail_of e.
Proof.
  intros Hcode Hdetail. rewrite api_error_of_rpc_error, Hcode.
  unfold VortexApiError__str__.
  cbn [message status_code details option_map].
  rewrite (truthy_nonempty _ (name_nonempty code)).
  rewrite (truthy_nonempty _ Hdetail).
  rewrite !append_assoc. reflexivity.
Qed.

(** ** Equations of the suspending executor *)

Section SuspendingExecutor.
Context {V : Type} (uniform : JitterSource) (self : Client)
        (async_grpc_call : Callable V) (operation_name : string).

Lemma execute_async_disabled w :
  retries_enabled self = false ->
  AsyncVortexClient._execute_with_retry_async uniform self async_grpc_call
                                              operation_name w
  = (match async_grpc_call (call_count w) with
     | Returns v => Return v
     | RaisesRpcError e =>
         if rpc_is_aio e then
           Raise (ApiError
             (VortexApiError__init__ ("Failed to " ++ operation_name)
                                     (Some e) None None))
         else
           Raise (VortexException
             ("An unexpected error occurred during " ++ operation_name
              ++ ": " ++ rpc_str e))
     | RaisesVortexApiError err => Raise (ApiError err)
     | RaisesException text =>
         Raise (VortexException
           ("An unexpected error occurred during " ++ operation_name
            ++ ": " ++ text))
     | RaisesBaseException text => Raise (BaseException text)
     end, after_call w).
Proof.
  intros Hoff. unfold AsyncVortexClient._execute_with_retry_async.
  rewrite Hoff. cbn [negb]. unfold bind, invoke.
  destruct (async_grpc_call (call_count w)) as [v|e|err|text|text];
    try reflexivity.
  destruct (rpc_is_aio e); reflexivity.
Qed.

Lemma execute_async_exited w r w' :
  retries_enabled self = true ->
  AsyncVortexClient.retry_loop_async uniform self async_grpc_call
    operation_name (py_range (max_retries self + 1)) None
    (initial_backoff_ms self) w
  = (Exited r, w') ->
  AsyncVortexClient._execute_with_retry_async uniform self async_grpc_call
                                              operation_name w
  = (r, w').
Proof.
  intros Hon Hloop. unfold AsyncVortexClient._execute_with_retry_async.
  rewrite Hon. cbn [negb]. unfold bind at 1. now rewrite Hloop.
Qed.

End SuspendingExecutor.

(** ** A negative budget *)

(** X4.  [range(self.max_retries + 1)] is empty when [max_retries] is
    negative: with retries enabled no attempt is made, nothing is slept
    and both executors end in their fallback [VortexException], whose
    messages differ by the suffix [" (async)"]. *)
Lemma negative_budget_reaches_fallback {V : Type} (uniform : JitterSource)
    (self : Client) (call : Callable V) (operation_name : string) :
  retries_enabled self = true ->
  (max_retries self < 0)%Z ->
  VortexClient._execute_with_retry uniform self call operation_name
                                   initial_world
  = (Raise (VortexException
       ("Failed to " ++ operation_name
        ++ " after all retries, but no gRPC exception was captured.")),
     initial_world)
  /\ AsyncVortexClient._execute_with_retry_async uniform self call
       operation_name initial_world
     = (Raise (VortexException
          ("Failed to " ++ operation_name
           ++ " after all retries, but no gRPC exception was captured (async).")),
        initial_world).
Proof.
  intros Hon Hneg.
  unfold VortexClient._execute_with_retry,
    AsyncVortexClient._execute_with_retry_async.
  rewrite Hon, py_range_nonpositive by lia. split; reflexivity.
Qed.

(** * The claims *)

(** C5.  With [retries_enabled] false the executor invokes the call exactly
    once and never sleeps.  A returned value is returned; an RPC error
    becomes at once a [VortexApiError] with the message
    ["Failed to {operation_name}"] that wraps the error, its code and its
    detail; any other exception becomes at once a [VortexException] with
    the message
    ["An unexpected error occurred during {operation_name}: {e}"]. *)
Theorem retries_disabled_single_attempt {V : Type} (uniform : JitterSource)
    (self : Client) (grpc_call : Callable V) (operation_name : string) :
  retries_enabled self = false ->
  let run :=
    VortexClient._execute_with_retry uniform self grpc_call operation_name
                                     initial_world in
  call_count (snd run) = 1
  /\ sleep_log (snd run) = []
  /\ (forall v, grpc_call 0 = Returns v -> fst run = Return v)
  /\ (forall e, grpc_call 0 = RaisesRpcError e ->
        exists err,
          fst run = Raise (ApiError err)
          /\ message err = "Failed to " ++ operation_name
          /\ grpc_error err = Some e
          /\ status_code err = option_map name (rpc_code e)
          /\ details err = Some (detail_of e))
  /\ (forall text, grpc_call 0 = RaisesException text ->
        fst run = Raise (VortexException
                    ("An unexpected error occurred during "
                     ++ operation_name ++ ": " ++ text))).
Proof.
  intros Hoff. cbv zeta. rewrite execute_disabled by assumption.
  cbn [initial_world call_count after_call sleep_log fst snd].
  repeat split.
  - intros v ->. reflexivity.
  - intros e ->. eexists. split; [reflexivity|].
    unfold VortexApiError__init__, detail_of.
    destruct (rpc_code e), (rpc_details e); cbn; auto.
  - intros text ->. reflexivity.
Qed.

Lemma retries_disabled_single_attempt_witness :
  let self := VortexClient.__init__ false 3 200 5000 1.5 true None in
  let run :=
    VortexClient._execute_with_retry (V:=string) (fixed_uniform 0) self
      (always (RaisesRpcError (mock_rpc_error UNKNOWN "gRPC failure")))
      "test_op_fail" initial_world in
  retries_enabled self = false
  /\ call_count (snd run) = 1
  /\ sleep_log (snd run) = []
  /\ exists err,
       fst run = Raise (ApiError err)
       /\ message err = "Failed to test_op_fail"
       /\ status_code err = Some "UNKNOWN"
       /\ details err = Some "gRPC failure".
Proof.
  cbv zeta. split; [reflexivity|].
  destruct (retries_disabled_single_attempt (V:=string) (fixed_uniform 0)
              (VortexClient.__init__ false 3 200 5000 1.5 true None)
              (always (RaisesRpcError
                         (mock_rpc_error UNKNOWN "gRPC failure")))
              "test_op_fail" eq_refl)
    as (Hcalls & Hsleeps & _ & Hrpc & _).
  destruct (Hrpc _ eq_refl) as (err & Hr & Hm & _ & Hsc & Hd).
  repeat split; try assumption. exists err. repeat split; assumption.
Defined.

(** C6.  With retries enabled and a non-negative [max_retries], a first
    attempt that fails with an RPC error whose code is not in the retryable
    list ends the execution at once: one invocation, no draw, no sleep, and
    a [VortexApiError] ["Failed to {operation_name}"] wrapping the error,
    whatever the value of [max_retries]. *)
Theorem non_retryable_code_short_circuits {V : Type}
    (uniform : JitterSource) (self : Client) (grpc_call : Callable V)
    (operation_name : string) (e : RpcError) :
  retries_enabled self = true ->
  (0 <= max_retries self)%Z ->
  grpc_call 0 = RaisesRpcError e ->
  (forall code, rpc_code e = Some code ->
                ~ In code (retryable_status_codes self)) ->
  VortexClient._execute_with_retry uniform self grpc_call operation_name
                                   initial_world
  = (Raise (ApiError
       (VortexApiError__init__ ("Failed to " ++ operation_name)
                               (Some e) None None)),
     mkWorld 1 0 []).
Proof.
  intros Hon Hmax Hcall Hcode. apply execute_exited; [assumption|].
  rewrite (py_range_split _ 0) by lia. cbn [seq map app].
  apply (retry_loop_fails uniform self grpc_call operation_name
           _ _ _ _ initial_world e Hcall).
  now rewrite not_retryable_when_code_absent.
Qed.

Lemma non_retryable_code_short_circuits_witness :
  let self :=
    VortexClient.__init__ true 3 200 5000 1.5 true (Some [UNAVAILABLE]) in
  let e := mock_rpc_error INVALID_ARGUMENT "Invalid argument" in
  retries_enabled self = true
  /\ (0 <= max_retries self)%Z
  /\ (forall code, rpc_code e = Some code ->
                   ~ In code (retryable_status_codes self))
  /\ VortexClient._execute_with_retry (V:=string) (fixed_uniform 0) self
       (always (RaisesRpcError e)) "test_op_non_retryable" initial_world
     = (Raise (ApiError
          (VortexApiError__init__ "Failed to test_op_non_retryable"
                                  (Some e) None None)),
        mkWorld 1 0 []).
Proof.
  cbv zeta.
  assert (Hcode : forall code,
             rpc_code (mock_rpc_error INVALID_ARGUMENT "Invalid argument")
             = Some code ->
             ~ In code
                 (retryable_status_codes
                    (VortexClient.__init__ true 3 200 5000 1.5 true
                                           (Some [UNAVAILABLE])))).
  { intros code Hc. injection Hc as <-. cbn. intros [H|[]]. discriminate H. }
  split; [reflexivity|]. split; [cbn; lia|]. split; [exact Hcode|].
  apply (non_retryable_code_short_circuits (V:=string) (fixed_uniform 0)
           (VortexClient.__init__ true 3 200 5000 1.5 true
                                  (Some [UNAVAILABLE]))
           (always (RaisesRpcError
                      (mock_rpc_error INVALID_ARGUMENT "Invalid argument")))
           "test_op_non_retryable"
           (mock_rpc_error INVALID_ARGUMENT "Invalid argument")
           eq_refl ltac:(cbn; lia) eq_refl Hcode).
Defined.

(** C7.  With retries enabled and a non-negative [max_retries], an
    exception that is neither an RPC error nor a [VortexApiError] ends the
    execution with the [VortexException]
    ["An unexpected error occurred during {operation_name}: {e}"]: at
    attempt 0 after one invocation, no draw and no sleep; and at any attempt
    index [k] within the budget that is reached through [k] retries, after
    [k + 1] invocations and [k] sleeps, so it is never retried. *)
Theorem unexpected_exception_never_retried {V : Type}
    (uniform : JitterSource) (self : Client) (grpc_call : Callable V)
    (operation_name text : string) :
  retries_enabled self = true ->
  (0 <= max_retries self)%Z ->
  (grpc_call 0 = RaisesException text ->
   VortexClient._execute_with_retry uniform self grpc_call operation_name
                                    initial_world
   = (Raise (VortexException
        ("An unexpected error occurred during " ++ operation_name
         ++ ": " ++ text)),
      mkWorld 1 0 []))
  /\ (forall k,
        (Z.of_nat k <= max_retries self)%Z ->
        (forall j, j < k ->
           is_retryable_failure self (grpc_call j) = true) ->
        grpc_call k = RaisesException text ->
        let run :=
          VortexClient._execute_with_retry uniform self grpc_call
                                           operation_name initial_world in
        fst run
        = Raise (VortexException
            ("An unexpected error occurred during " ++ operation_name
             ++ ": " ++ text))
        /\ call_count (snd run) = S k
        /\ List.length (sleep_log (snd run)) = k).
Proof.
  intros Hon Hmax. split.
  - intros Hcall. apply execute_exited; [assumption|].
    rewrite (py_range_split _ 0) by lia. cbn [seq map app].
    exact (retry_loop_exception uniform self grpc_call operation_name
             _ _ _ _ initial_world text Hcall).
  - intros k Hk Hpre Hcall. cbv zeta.
    destruct (retry_loop_retryable_prefix uniform self grpc_call
                operation_name k 0
                (Z.of_nat k
                 :: map Z.of_nat (seq (S k) (Z.to_nat (max_retries self) - k)))
                None (initial_backoff_ms self) initial_world)
      as (last' & cb' & w' & Heq & Hcalls & Hsleeps).
    { intros j Hj. cbn [initial_world call_count Nat.add]. now apply Hpre. }
    { cbn [Nat.add]. exact Hk. }
    cbn [initial_world call_count sleep_log List.length Nat.add] in *.
    rewrite (execute_exited uniform self grpc_call operation_name
               initial_world
               (Raise (VortexException
                  ("An unexpected error occurred during " ++ operation_name
                   ++ ": " ++ text)))
               (after_call w') Hon).
    + cbn [fst snd after_call call_count sleep_log]. repeat split; lia.
    + rewrite (py_range_split _ k) by lia. rewrite Heq.
      apply retry_loop_exception. now rewrite Hcalls.
Qed.

Lemma unexpected_exception_never_retried_witness :
  let self := VortexClient.__init__ true 3 200 5000 1.5 true None in
  retries_enabled self = true
  /\ (0 <= max_retries self)%Z
  /\ VortexClient._execute_with_retry (V:=string) (fixed_uniform 0) self
       (always (RaisesException "Unexpected Python error"))
       "test_op_unexpected_py_err" initial_world
     = (Raise (VortexException
          "An unexpected error occurred during test_op_unexpected_py_err: Unexpected Python error"),
        mkWorld 1 0 []).
Proof.
  cbv zeta. split; [reflexivity|]. split; [cbn; lia|].
  apply (proj1 (unexpected_exception_never_retried (V:=string)
                  (fixed_uniform 0)
                  (VortexClient.__init__ true 3 200 5000 1.5 true None)
                  (always (RaisesException "Unexpected Python error"))
                  "test_op_unexpected_py_err" "Unexpected Python error"
                  eq_refl ltac:(cbn; lia)) eq_refl).
Defined.

(** C9.  With retries enabled and a non-negative [max_retries], whatever
    the attempts do, the loop of the blocking executor ends by a [return]
    or a [raise] in its body and that is how the executor ends; the result
    is never the [VortexException] of the fallback after the loop. *)
Theorem fallback_after_loop_unreachable {V : Type} (uniform : JitterSource)
    (self : Client) (grpc_call : Callable V) (operation_name : string) :
  retries_enabled self = true ->
  (0 <= max_retries self)%Z ->
  exists r w,
    VortexClient.retry_loop uniform self grpc_call operation_name
      (py_range (max_retries self + 1)) None (initial_backoff_ms self)
      initial_world
    = (Exited r, w)
    /\ VortexClient._execute_with_retry uniform self grpc_call
         operation_name initial_world = (r, w)
    /\ r <> Raise (VortexException
               ("Failed to " ++ operation_name
                ++ " after all retries, but no gRPC exception was captured.")).
Proof.
  intros Hon Hmax.
  destruct (retry_loop_exits uniform self grpc_call operation_name
              (Z.to_nat (max_retries self)) 0 None
              (initial_backoff_ms self) initial_world)
    as (r & w & Hloop); [cbn [Nat.add]; lia|].
  assert (Hrange : py_range (max_retries self + 1)
                   = map Z.of_nat (seq 0 (S (Z.to_nat (max_retries self))))).
  { unfold py_range. f_equal. f_equal. lia. }
  exists r, w. rewrite Hrange. repeat split.
  - exact Hloop.
  - apply execute_exited; [assumption|]. now rewrite Hrange.
  - exact (retry_loop_exit_not_fallback _ _ _ _ _ _ _ _ _ _ _ Hloop).
Qed.

Lemma fallback_after_loop_unreachable_witness :
  let self := VortexClient.__init__ true 0 200 5000 1.5 true None in
  retries_enabled self = true
  /\ (0 <= max_retries self)%Z
  /\ exists r w,
       VortexClient._execute_with_retry (V:=string) (fixed_uniform 0) self
         (always (RaisesRpcError (mock_rpc_error UNAVAILABLE "Unavailable")))
         "op" initial_world = (r, w)
       /\ r <> Raise (VortexException
                  "Failed to op after all retries, but no gRPC exception was captured.").
Proof.
  cbv zeta. split; [reflexivity|]. split; [cbn; lia|].
  destruct (fallback_after_loop_unreachable (V:=string) (fixed_uniform 0)
              (VortexClient.__init__ true 0 200 5000 1.5 true None)
              (always (RaisesRpcError
                         (mock_rpc_error UNAVAILABLE "Unavailable")))
              "op" eq_refl ltac:(cbn; lia))
    as (r & w & _ & Hrun & Hneq).
  exists r, w. split; assumption.
Defined.

(** C1 (what the code does).  With retries enabled, a non-negative
    [max_retries] and attempts [0 .. max_retries] that all fail with a
    retryable RPC error, the executor makes [max_retries + 1] invocations
    and [max_retries] sleeps and raises a [VortexApiError] that wraps the
    failure of the last attempt.  Its message is
    ["Failed to {operation_name}"]: the last attempt leaves through the
    [raise] that ends the handler, so the message is not the one with the
    suffix [" after {max_retries} retries"] built after the loop. *)
Theorem exhausted_retries_message_lacks_suffix {V : Type}
    (uniform : JitterSource) (self : Client) (grpc_call : Callable V)
    (operation_name : string) (e_last : RpcError) :
  retries_enabled self = true ->
  (0 <= max_retries self)%Z ->
  (forall j, j <= Z.to_nat (max_retries self) ->
     is_retryable_failure self (grpc_call j) = true) ->
  grpc_call (Z.to_nat (max_retries self)) = RaisesRpcError e_last ->
  let run :=
    VortexClient._execute_with_retry uniform self grpc_call operation_name
                                     initial_world in
  call_count (snd run) = S (Z.to_nat (max_retries self))
  /\ List.length (sleep_log (snd run)) = Z.to_nat (max_retries self)
  /\ exists err,
       fst run = Raise (ApiError err)
       /\ grpc_error err = Some e_last
       /\ message err = "Failed to " ++ operation_name
       /\ message err
          <> "Failed to " ++ operation_name ++ " after "
             ++ str_int (max_retries self) ++ " retries".
Proof.
  intros Hon Hmax Hall Hlast. cbv zeta.
  set (n := Z.to_nat (max_retries self)) in *.
  destruct (retry_loop_retryable_prefix uniform self grpc_call
              operation_name n 0
              (Z.of_nat n :: map Z.of_nat (seq (S n) (n - n)))
              None (initial_backoff_ms self) initial_world)
    as (last' & cb' & w' & Heq & Hcalls & Hsleeps).
  { intros j Hj. cbn [initial_world call_count Nat.add]. apply Hall. lia. }
  { cbn [Nat.add]. lia. }
  cbn [initial_world call_count sleep_log List.length Nat.add] in *.
  rewrite (execute_exited uniform self grpc_call operation_name
             initial_world
             (Raise (ApiError
                (VortexApiError__init__ ("Failed to " ++ operation_name)
                                        (Some e_last) None None)))
             (after_call w') Hon).
  - cbn [fst snd after_call call_count sleep_log].
    split; [lia|]. split; [lia|].
    eexists. split; [reflexivity|]. rewrite api_error_of_rpc_error.
    cbn [grpc_error message]. repeat split.
    rewrite <- append_assoc. apply append_longer_neq. discriminate.
  - rewrite (py_range_split _ n) by lia. fold n. rewrite Heq.
    apply retry_loop_fails; [now rewrite Hcalls|].
    apply andb_false_iff. right. apply Z.ltb_ge. lia.
Qed.

Lemma exhausted_retries_message_lacks_suffix_witness :
  let self :=
    mkClient true 2 50 5000 2 true [RESOURCE_EXHAUSTED] in
  let e := mock_rpc_error RESOURCE_EXHAUSTED "Resource exhausted" in
  let run :=
    VortexClient._execute_with_retry (V:=string) (fixed_uniform 0.05) self
      (always (RaisesRpcError e)) "test_op_exhausted" initial_world in
  retries_enabled self = true
  /\ (0 <= max_retries self)%Z
  /\ call_count (snd run) = 3
  /\ List.length (sleep_log (snd run)) = 2
  /\ exists err,
       fst run = Raise (ApiError err)
       /\ message err = "Failed to test_op_exhausted"
       /\ message err <> "Failed to test_op_exhausted after 2 retries".
Proof.
  cbv zeta. split; [reflexivity|]. split; [cbn; lia|].
  destruct (exhausted_retries_message_lacks_suffix (V:=string)
              (fixed_uniform 0.05)
              (mkClient true 2 50 5000 2 true [RESOURCE_EXHAUSTED])
              (always (RaisesRpcError
                 (mock_rpc_error RESOURCE_EXHAUSTED "Resource exhausted")))
              "test_op_exhausted"
              (mock_rpc_error RESOURCE_EXHAUSTED "Resource exhausted")
              eq_refl ltac:(cbn; lia) (fun _ _ => eq_refl) eq_refl)
    as (Hcalls & Hsleeps & err & Hrun & _ & Hmsg & Hneq).
  split; [exact Hcalls|]. split; [exact Hsleeps|].
  exists err. repeat split; assumption.
Defined.

(** C2.  With retries enabled, [max_retries = 2],
    [initial_backoff_ms = 50], [backoff_multiplier = 2.0], jitter enabled,
    [random.uniform] fixed at 0.05, the retryable list
    [[RESOURCE_EXHAUSTED]], a cap above the 100 ms that the backoff reaches
    (the default is 5000), and a call whose three attempts fail with
    RESOURCE_EXHAUSTED errors: the call is invoked exactly 3 times,
    [time.sleep] exactly twice, with 0.0525 then 0.105 seconds, and the
    executor raises a [VortexApiError] that renders, the detail text of the
    last failure being non-empty, as
    ["Failed to {operation_name} (Status Code: RESOURCE_EXHAUSTED) Details: {detail}"]. *)
Theorem exhaustion_with_fixed_jitter {V : Type} (self : Client)
    (grpc_call : Callable V) (operation_name : string)
    (e0 e1 e2 : RpcError) :
  retries_enabled self = true ->
  max_retries self = 2%Z ->
  initial_backoff_ms self = 50%float ->
  backoff_multiplier self = 2%float ->
  retry_jitter self = true ->
  retryable_status_codes self = [RESOURCE_EXHAUSTED] ->
  PrimFloat.ltb 100 (max_backoff_ms self) = true ->
  grpc_call 0 = RaisesRpcError e0 ->
  grpc_call 1 = RaisesRpcError e1 ->
  grpc_call 2 = RaisesRpcError e2 ->
  rpc_code e0 = Some RESOURCE_EXHAUSTED ->
  rpc_code e1 = Some RESOURCE_EXHAUSTED ->
  rpc_code e2 = Some RESOURCE_EXHAUSTED ->
  detail_of e2 <> "" ->
  let run :=
    VortexClient._execute_with_retry (fixed_uniform 0.05) self grpc_call
                                     operation_name initial_world in
  call_count (snd run) = 3
  /\ sleep_log (snd run)
     = [(Blocking, 0.0525%float); (Blocking, 0.105%float)]
  /\ exists err,
       fst run = Raise (ApiError err)
       /\ VortexApiError__str__ err
          = "Failed to " ++ operation_name
            ++ " (Status Code: RESOURCE_EXHAUSTED) Details: "
            ++ detail_of e2.
Proof.
  intros Hon Hmax Hinit Hmul Hjit Hcodes Hcap H0 H1 H2 Hc0 Hc1 Hc2 Hdetail.
  assert (Hre : forall e, rpc_code e = Some RESOURCE_EXHAUSTED ->
                  is_retryable_failure self (RaisesRpcError (V:=V) e) = true).
  { intros e He. cbn. now rewrite He, Hcodes. }
  cbv zeta.
  rewrite (execute_exited (fixed_uniform 0.05) self grpc_call operation_name
             initial_world
             (Raise (ApiError
                (VortexApiError__init__ ("Failed to " ++ operation_name)
                                        (Some e2) None None)))
             (mkWorld 3 2 [(Blocking, 0.0525%float);
                           (Blocking, 0.105%float)]) Hon).
  - cbn [fst snd call_count sleep_log]. repeat split.
    eexists. split; [reflexivity|].
    now rewrite (str_of_api_error _ _ _ Hc2 Hdetail).
  - rewrite Hmax, Hinit. change (py_range (2 + 1)) with [0; 1; 2]%Z.
    erewrite retry_loop_retries;
      [| exact H0 | exact (Hre e0 Hc0) | lia].
    erewrite retry_loop_retries;
      [| exact H1 | exact (Hre e1 Hc1) | lia].
    erewrite retry_loop_fails;
      [| exact H2 | apply andb_false_iff; right; now rewrite Hmax].
    unfold next_backoff, after_retry, jittered, py_min, fixed_uniform,
      after_call.
    rewrite Hjit, Hmul. cbn [initial_world call_count draw_count sleep_log].
    change (50 * 2)%float with 100%float. rewrite Hcap. reflexivity.
Qed.

Lemma exhaustion_with_fixed_jitter_witness :
  let self := mkClient true 2 50 5000 2 true [RESOURCE_EXHAUSTED] in
  let e := mock_rpc_error RESOURCE_EXHAUSTED "Resource exhausted" in
  let run :=
    VortexClient._execute_with_retry (V:=string) (fixed_uniform 0.05) self
      (side_effect [RaisesRpcError e; RaisesRpcError e; RaisesRpcError e])
      "test_op_exhausted" initial_world in
  PrimFloat.ltb 100 (max_backoff_ms self) = true
  /\ detail_of e <> ""
  /\ call_count (snd run) = 3
  /\ sleep_log (snd run)
     = [(Blocking, 0.0525%float); (Blocking, 0.105%float)]
  /\ exists err,
       fst run = Raise (ApiError err)
       /\ VortexApiError__str__ err
          = "Failed to test_op_exhausted (Status Code: RESOURCE_EXHAUSTED) Details: Resource exhausted".
Proof.
  cbv zeta. split; [reflexivity|]. split; [discriminate|].
  apply (exhaustion_with_fixed_jitter (V:=string)
           (mkClient true 2 50 5000 2 true [RESOURCE_EXHAUSTED])
           (side_effect
              [RaisesRpcError
                 (mock_rpc_error RESOURCE_EXHAUSTED "Resource exhausted");
               RaisesRpcError
                 (mock_rpc_error RESOURCE_EXHAUSTED "Resource exhausted");
               RaisesRpcError
                 (mock_rpc_error RESOURCE_EXHAUSTED "Resource exhausted")])
           "test_op_exhausted"
           (mock_rpc_error RESOURCE_EXHAUSTED "Resource exhausted")
           (mock_rpc_error RESOURCE_EXHAUSTED "Resource exhausted")
           (mock_rpc_error RESOURCE_EXHAUSTED "Resource exhausted"));
    solve [reflexivity | discriminate].
Defined.

(** C4.  With retries enabled, [max_retries = 3],
    [initial_backoff_ms = 1000], [max_backoff_ms = 2500],
    [backoff_multiplier = 2.0], jitter disabled, and a call that fails with
    a retryable RPC error on its first three attempts and returns on the
    fourth: the call is invoked exactly 4 times, [time.sleep] exactly three
    times with 1.0, 2.0 and 2.5 seconds in that order, the value is
    returned; the third backoff is the cap, taken in place of the product
    4000 ms. *)
Theorem backoff_capping_scenario {V : Type} (uniform : JitterSource)
    (self : Client) (grpc_call : Callable V) (operation_name : string)
    (v : V) :
  retries_enabled self = true ->
  max_retries self = 3%Z ->
  initial_backoff_ms self = 1000%float ->
  max_backoff_ms self = 2500%float ->
  backoff_multiplier self = 2%float ->
  retry_jitter self = false ->
  (forall j, j < 3 -> is_retryable_failure self (grpc_call j) = true) ->
  grpc_call 3 = Returns v ->
  VortexClient._execute_with_retry uniform self grpc_call operation_name
                                   initial_world
  = (Return v,
     mkWorld 4 0 [(Blocking, 1%float); (Blocking, 2%float);
                  (Blocking, 2.5%float)])
  /\ PrimFloat.mul 2000 (backoff_multiplier self) = 4000%float
  /\ next_backoff self 2000 = 2500%float.
Proof.
  intros Hon Hmax Hinit Hcap Hmul Hjit Hfail Hok.
  assert (Hstep : forall j attempt rest last cb w,
             j < 3 -> call_count w = j -> (attempt < 3)%Z ->
             VortexClient.retry_loop uniform self grpc_call operation_name
               (attempt :: rest) last cb w
             = VortexClient.retry_loop uniform self grpc_call operation_name
                 rest
                 (match grpc_call j with
                  | RaisesRpcError e => Some e
                  | _ => last
                  end)
                 (next_backoff self cb)
                 (after_retry Blocking uniform self cb w)).
  { intros j attempt rest last cb w Hj Hw Hlt.
    pose proof (Hfail j Hj) as Hre. rewrite <- Hw in *.
    destruct (grpc_call (call_count w)) as [?|e|?|?|?] eqn:Hc;
      try discriminate Hre.
    apply retry_loop_retries; [assumption | assumption | lia]. }
  split; [|split].
  - apply execute_exited; [assumption|].
    rewrite Hmax, Hinit. change (py_range (3 + 1)) with [0; 1; 2; 3]%Z.
    rewrite (Hstep 0) by (reflexivity || lia).
    rewrite (Hstep 1) by (reflexivity || lia).
    rewrite (Hstep 2) by (reflexivity || lia).
    rewrite (retry_loop_returns _ self grpc_call _ _ _ _ _ _ v)
      by exact Hok.
    unfold next_backoff, after_retry, jittered, py_min, after_call.
    rewrite Hjit, Hmul, Hcap. reflexivity.
  - now rewrite Hmul.
  - unfold next_backoff. now rewrite Hmul, Hcap.
Qed.

Lemma backoff_capping_scenario_witness :
  let self := mkClient true 3 1000 2500 2 false [UNAVAILABLE] in
  let mock_error := mock_rpc_error UNAVAILABLE "Unavailable" in
  VortexClient._execute_with_retry (fixed_uniform 0) self
    (side_effect [RaisesRpcError mock_error; RaisesRpcError mock_error;
                  RaisesRpcError mock_error;
                  Returns "success_capped_backoff"])
    "test_op_capped" initial_world
  = (Return "success_capped_backoff",
     mkWorld 4 0 [(Blocking, 1%float); (Blocking, 2%float);
                  (Blocking, 2.5%float)]).
Proof.
  cbv zeta.
  apply (backoff_capping_scenario (fixed_uniform 0)
           (mkClient true 3 1000 2500 2 false [UNAVAILABLE])
           (side_effect
              [RaisesRpcError (mock_rpc_error UNAVAILABLE "Unavailable");
               RaisesRpcError (mock_rpc_error UNAVAILABLE "Unavailable");
               RaisesRpcError (mock_rpc_error UNAVAILABLE "Unavailable");
               Returns "success_capped_backoff"])
           "test_op_capped" "success_capped_backoff");
    try reflexivity.
  intros j Hj.
  destruct j as [|[|[|j]]]; [reflexivity | reflexivity | reflexivity | lia].
Defined.

(** C3.  In every execution of the blocking executor the k-th sleep lasts
    the k-th stored backoff, times [1 + random.uniform(-0.1, 0.1)] with a
    draw of its own when jitter is enabled, in seconds, where the stored
    backoff starts at [initial_backoff_ms] and each retry replaces it by
    [min(max_backoff_ms, stored * backoff_multiplier)]: the cap bounds the
    stored value only and no sleep duration is capped.  So a first sleep
    uses [initial_backoff_ms] as it is, also above the cap (3000 ms with a
    cap of 1000 ms sleeps 3 s), and a sleep with positive jitter exceeds
    the cap (1000 ms at the cap of 1000 ms with jitter 0.05 sleeps
    1.05 s). *)
Theorem cap_bounds_stored_backoff_only :
  (forall (V : Type) (uniform : JitterSource) (self : Client)
          (grpc_call : Callable V) (operation_name : string),
     let w :=
       snd (VortexClient._execute_with_retry uniform self grpc_call
              operation_name initial_world) in
     sleep_durations w
     = map (spec_sleep_seconds uniform self)
           (seq 0 (List.length (sleep_log w)))
     /\ draw_count w
        = if retry_jitter self then List.length (sleep_log w) else 0)
  /\ (let self := mkClient true 1 3000 1000 2 false [UNAVAILABLE] in
      let w :=
        snd (VortexClient._execute_with_retry (fixed_uniform 0) self
               (side_effect
                  [RaisesRpcError (mock_rpc_error UNAVAILABLE "Unavailable");
                   Returns "ok"])
               "op" initial_world) in
      PrimFloat.ltb (max_backoff_ms self) (initial_backoff_ms self) = true
      /\ sleep_durations w = [PrimFloat.div (initial_backoff_ms self) 1000]
      /\ sleep_durations w = [3%float])
  /\ (let self := mkClient true 1 1000 1000 2 true [UNAVAILABLE] in
      let w :=
        snd (VortexClient._execute_with_retry (fixed_uniform 0.05) self
               (side_effect
                  [RaisesRpcError (mock_rpc_error UNAVAILABLE "Unavailable");
                   Returns "ok"])
               "op" initial_world) in
      sleep_durations w = [1.05%float]
      /\ PrimFloat.ltb (PrimFloat.div (max_backoff_ms self) 1000) 1.05
         = true).
Proof.
  split; [|split].
  - intros V uniform self grpc_call operation_name. cbv zeta.
    fold (on_schedule uniform self
            (snd (VortexClient._execute_with_retry uniform self grpc_call
                    operation_name initial_world))).
    destruct (retries_enabled self) eqn:Hon.
    + rewrite execute_in_loop_world by assumption.
      apply (retry_loop_on_schedule uniform self grpc_call operation_name
               _ None initial_world).
      unfold on_schedule. cbn. now destruct (retry_jitter self).
    + rewrite execute_disabled by assumption.
      unfold on_schedule. cbn. now destruct (retry_jitter self).
  - cbv zeta. repeat split; reflexivity.
  - cbv zeta. repeat split; reflexivity.
Qed.

(** C8 (as amended).  For every client with a non-negative [max_retries],
    every jitter source and every call whose RPC errors are all instances
    of [grpc.aio.AioRpcError] (the class that the first handler of the
    suspending executor catches, and that the blocking one catches as a
    [grpc.RpcError]), the blocking and the suspending executor end the same
    way (the same value, or the same exception with the same message) after
    the same number of invocations and of draws and the same sleep
    durations in the same order; the one only sleeps with [time.sleep], the
    other only with [asyncio.sleep]. *)
Theorem blocking_and_suspending_executors_agree {V : Type}
    (uniform : JitterSource) (self : Client) (call : Callable V)
    (operation_name : string) :
  (0 <= max_retries self)%Z ->
  raises_only_aio_rpc_errors call ->
  let sync :=
    VortexClient._execute_with_retry uniform self call operation_name
                                     initial_world in
  let async :=
    AsyncVortexClient._execute_with_retry_async uniform self call
                                                operation_name
                                                initial_world in
  fst sync = fst async
  /\ call_count (snd sync) = call_count (snd async)
  /\ draw_count (snd sync) = draw_count (snd async)
  /\ sleep_durations (snd sync) = sleep_durations (snd async)
  /\ all_sleeps_of Blocking (snd sync)
  /\ all_sleeps_of Suspending (snd async).
Proof.
  intros Hmax Haio. cbv zeta.
  assert (Hnil : forall kind, all_sleeps_of kind initial_world)
    by (intros kind; constructor).
  destruct (retries_enabled self) eqn:Hon.
  - assert (Hrange : py_range (max_retries self + 1)
                     = map Z.of_nat
                         (seq 0 (S (Z.to_nat (max_retries self))))).
    { unfold py_range. f_equal. f_equal. lia. }
    destruct (retry_loop_exits uniform self call operation_name
                (Z.to_nat (max_retries self)) 0 None
                (initial_backoff_ms self) initial_world)
      as (r & w & Hsync); [cbn [Nat.add]; lia|].
    rewrite <- Hrange in Hsync.
    pose proof (retry_loops_agree uniform self call operation_name
                  (py_range (max_retries self + 1))
                  None (initial_backoff_ms self) initial_world initial_world
                  Haio (conj eq_refl (conj eq_refl eq_refl))
                  (Hnil Suspending))
      as (Hexit & (Hc & Hd & Hs) & Hsusp).
    pose proof (retry_loop_blocking uniform self call operation_name
                  (py_range (max_retries self + 1))
                  None (initial_backoff_ms self) initial_world
                  (Hnil Blocking)) as Hblock.
    cbv zeta in Hexit, Hc, Hd, Hs, Hsusp.
    destruct (AsyncVortexClient.retry_loop_async uniform self call
                operation_name (py_range (max_retries self + 1)) None
                (initial_backoff_ms self) initial_world)
      as [exit w2] eqn:Hasync.
    rewrite Hsync in *. cbn [fst snd] in *. subst exit.
    rewrite (execute_exited uniform self call operation_name
               initial_world r w Hon Hsync).
    rewrite (execute_async_exited uniform self call operation_name
               initial_world r w2 Hon Hasync).
    cbn [fst snd]. repeat split; assumption.
  - rewrite execute_disabled, execute_async_disabled by assumption.
    cbn [initial_world call_count fst snd].
    destruct (call 0) as [v|e|err|text|text] eqn:Hcall;
      try (repeat split; constructor).
    rewrite (Haio _ _ Hcall). repeat split; constructor.
Qed.

Lemma blocking_and_suspending_executors_agree_witness :
  let self := mkClient true 3 1000 2500 2 true [UNAVAILABLE] in
  let mock_error :=
    mock_aio_rpc_error UNAVAILABLE "Unavailable" "<AioRpcError>" in
  let call :=
    side_effect [RaisesRpcError mock_error; RaisesRpcError mock_error;
                 Returns "success"] in
  let sync :=
    VortexClient._execute_with_retry (fixed_uniform 0.05) self call
                                     "op" initial_world in
  let async :=
    AsyncVortexClient._execute_with_retry_async (fixed_uniform 0.05) self
                                                call "op" initial_world in
  (0 <= max_retries self)%Z
  /\ raises_only_aio_rpc_errors call
  /\ fst sync = fst async
  /\ call_count (snd sync) = call_count (snd async)
  /\ draw_count (snd sync) = draw_count (snd async)
  /\ sleep_durations (snd sync) = sleep_durations (snd async)
  /\ all_sleeps_of Blocking (snd sync)
  /\ all_sleeps_of Suspending (snd async).
Proof.
  cbv zeta.
  assert (Haio : raises_only_aio_rpc_errors
                   (side_effect
                      [RaisesRpcError
                         (mock_aio_rpc_error UNAVAILABLE "Unavailable"
                                             "<AioRpcError>");
                       RaisesRpcError
                         (mock_aio_rpc_error UNAVAILABLE "Unavailable"
                                             "<AioRpcError>");
                       Returns "success"])).
  { intros k e Hk.
    destruct k as [|[|[|[|k]]]]; cbn in Hk;
      try discriminate Hk; now injection Hk as <-. }
  split; [cbn; lia|]. split; [exact Haio|].
  apply (blocking_and_suspending_executors_agree (fixed_uniform 0.05)
           (mkClient true 3 1000 2500 2 true [UNAVAILABLE])
           (side_effect
              [RaisesRpcError
                 (mock_aio_rpc_error UNAVAILABLE "Unavailable"
                                     "<AioRpcError>");
               RaisesRpcError
                 (mock_aio_rpc_error UNAVAILABLE "Unavailable"
                                     "<AioRpcError>");
               Returns "success"])
           "op"); [cbn; lia | exact Haio].
Defined.

(** C8 (as stated) fails: on a retryable [grpc.RpcError] that is not a
    [grpc.aio.AioRpcError], followed by a success, the blocking executor
    sleeps, retries and returns the value after two invocations, while the
    suspending executor takes the error for an unexpected exception and
    raises a [VortexException] after one invocation and no sleep. *)
Lemma executors_differ_on_plain_rpc_error :
  let self := mkClient true 1 100 5000 1.5 false [UNAVAILABLE] in
  let call :=
    side_effect [RaisesRpcError (mock_rpc_error UNAVAILABLE "Unavailable");
                 Returns "success_after_retry"] in
  let sync :=
    VortexClient._execute_with_retry (fixed_uniform 0) self call
                                     "op" initial_world in
  let async :=
    AsyncVortexClient._execute_with_retry_async (fixed_uniform 0) self
                                                call "op" initial_world in
  (0 <= max_retries self)%Z
  /\ sync = (Return "success_after_retry",
             mkWorld 2 0 [(Blocking, 0.1%float)])
  /\ async = (Raise (VortexException
                "An unexpected error occurred during op: Unavailable"),
              mkWorld 1 0 [])
  /\ fst sync <> fst async
  /\ call_count (snd sync) <> call_count (snd async)
  /\ sleep_durations (snd sync) <> sleep_durations (snd async).
Proof.
  cbv zeta. split; [cbn; lia|].
  split; [reflexivity|]. split; [reflexivity|].
  repeat split; intros H; discriminate H.
Qed.

(** C10.  Both constructors, given the empty list for
    [retryable_status_codes], store the default list
    [[UNAVAILABLE, RESOURCE_EXHAUSTED]] and not the empty one; whatever the
    argument ([None], empty or not), the stored list is never empty, so an
    empty retryable set cannot be configured through this parameter. *)
Theorem empty_retryable_codes_coalesce_to_default
    (enabled : bool) (retries : Z) (initial cap multiplier : float)
    (jitter : bool) :
  retryable_status_codes
    (VortexClient.__init__ enabled retries initial cap multiplier jitter
                           (Some []))
  = [UNAVAILABLE; RESOURCE_EXHAUSTED]
  /\ retryable_status_codes
       (AsyncVortexClient.__init__ enabled retries initial cap multiplier
                                   jitter (Some []))
     = [UNAVAILABLE; RESOURCE_EXHAUSTED]
  /\ (forall arg,
        retryable_status_codes
          (VortexClient.__init__ enabled retries initial cap multiplier
                                 jitter arg) <> []
        /\ retryable_status_codes
             (AsyncVortexClient.__init__ enabled retries initial cap
                                         multiplier jitter arg) <> []).
Proof.
  repeat split; try reflexivity; apply or_default_codes_nonempty.
Qed.

(** * Further properties of the retry helpers *)

(** Invocations and sleeps of the blocking loop: an exit in the body comes
    after one more invocation than sleeps, within the attempts given; a
    loop that runs out has slept after every attempt. *)
Lemma retry_loop_accounting {V : Type} (uniform : JitterSource)
    (self : Client) (grpc_call : Callable V) (operation_name : string)
    attempts :
  forall last cb w,
    match VortexClient.retry_loop uniform self grpc_call operation_name
            attempts last cb w with
    | (Exited _, w') =>
        exists k,
          k < List.length attempts
          /\ call_count w' = call_count w + S k
          /\ List.length (sleep_log w') = List.length (sleep_log w) + k
    | (Completed _ _, w') =>
        call_count w' = call_count w + List.length attempts
        /\ List.length (sleep_log w')
           = List.length (sleep_log w) + List.length attempts
    end.
Proof.
  induction attempts as [|attempt rest IH]; intros last cb w.
  - cbn. lia.
  - destruct (retry_loop_cons_cases uniform self grpc_call operation_name
                attempt rest last cb w)
      as [[r Hr]|(e & _ & _ & _ & Hr)]; rewrite Hr.
    + exists 0. cbn. repeat split; lia.
    + specialize (IH (Some e) (next_backoff self cb)
                     (after_retry Blocking uniform self cb w)).
      destruct (VortexClient.retry_loop uniform self grpc_call
                  operation_name rest (Some e) (next_backoff self cb)
                  (after_retry Blocking uniform self cb w))
        as [[r|last' cb'] w'];
        cbn [after_retry call_count sleep_log] in IH;
        rewrite length_app in IH; cbn [List.length] in *.
      * destruct IH as (k & Hk & Hcalls & Hsleeps).
        exists (S k). repeat split; lia.
      * lia.
Qed.

(** X1.  With retries enabled, [k] retryable failures within the budget
    followed by a success return the value of the success after [k + 1]
    invocations and [k] sleeps; for [k = 0] that is an immediate success
    without any sleep. *)
Theorem success_after_retries_returns {V : Type} (uniform : JitterSource)
    (self : Client) (grpc_call : Callable V) (operation_name : string)
    (k : nat) (v : V) :
  retries_enabled self = true ->
  (Z.of_nat k <= max_retries self)%Z ->
  (forall j, j < k -> is_retryable_failure self (grpc_call j) = true) ->
  grpc_call k = Returns v ->
  let run :=
    VortexClient._execute_with_retry uniform self grpc_call operation_name
                                     initial_world in
  fst run = Return v
  /\ call_count (snd run) = S k
  /\ List.length (sleep_log (snd run)) = k.
Proof.
  intros Hon Hk Hpre Hcall. cbv zeta.
  destruct (retry_loop_retryable_prefix uniform self grpc_call
              operation_name k 0
              (Z.of_nat k
               :: map Z.of_nat (seq (S k) (Z.to_nat (max_retries self) - k)))
              None (initial_backoff_ms self) initial_world)
    as (last' & cb' & w' & Heq & Hcalls & Hsleeps).
  { intros j Hj. cbn [initial_world call_count Nat.add]. now apply Hpre. }
  { cbn [Nat.add]. exact Hk. }
  cbn [initial_world call_count sleep_log List.length Nat.add] in *.
  rewrite (execute_exited uniform self grpc_call operation_name
             initial_world (Return v) (after_call w') Hon).
  - cbn [fst snd after_call call_count sleep_log]. repeat split; lia.
  - rewrite (py_range_split _ k) by lia. rewrite Heq.
    apply retry_loop_returns. now rewrite Hcalls.
Qed.

Lemma success_after_retries_returns_witness :
  let self := mkClient true 1 100 5000 1.5 true [UNAVAILABLE] in
  let run :=
    VortexClient._execute_with_retry (fixed_uniform 0) self
      (side_effect
         [RaisesRpcError (mock_rpc_error UNAVAILABLE "Unavailable");
          Returns "success_after_retry"])
      "test_op_retry_once" initial_world in
  retries_enabled self = true
  /\ (Z.of_nat 1 <= max_retries self)%Z
  /\ fst run = Return "success_after_retry"
  /\ call_count (snd run) = 2
  /\ List.length (sleep_log (snd run)) = 1.
Proof.
  cbv zeta. split; [reflexivity|]. split; [cbn; lia|].
  apply (success_after_retries_returns (fixed_uniform 0)
           (mkClient true 1 100 5000 1.5 true [UNAVAILABLE])
           (side_effect
              [RaisesRpcError (mock_rpc_error UNAVAILABLE "Unavailable");
               Returns "success_after_retry"])
           "test_op_retry_once" 1 "success_after_retry");
    try reflexivity; try (cbn; lia).
  intros j Hj. destruct j as [|j]; [reflexivity | lia].
Defined.

(** X2.  A [VortexApiError] raised by the call itself leaves the executor
    as it is (same message, status code and details), without a sleep after
    it: at once when retries are disabled, and when they are enabled at any
    attempt [k] within the budget that is reached through [k] retries. *)
Theorem api_error_of_call_is_reraised {V : Type} (uniform : JitterSource)
    (self : Client) (grpc_call : Callable V) (operation_name : string)
    (k : nat) (err : VortexApiError) :
  (if retries_enabled self
   then (Z.of_nat k <= max_retries self)%Z
        /\ forall j, j < k -> is_retryable_failure self (grpc_call j) = true
   else k = 0) ->
  grpc_call k = RaisesVortexApiError err ->
  let run :=
    VortexClient._execute_with_retry uniform self grpc_call operation_name
                                     initial_world in
  fst run = Raise (ApiError err)
  /\ call_count (snd run) = S k
  /\ List.length (sleep_log (snd run)) = k.
Proof.
  intros Hk Hcall. cbv zeta. destruct (retries_enabled self) eqn:Hon.
  - destruct Hk as [Hk Hpre].
    destruct (retry_loop_retryable_prefix uniform self grpc_call
                operation_name k 0
                (Z.of_nat k
                 :: map Z.of_nat
                        (seq (S k) (Z.to_nat (max_retries self) - k)))
                None (initial_backoff_ms self) initial_world)
      as (last' & cb' & w' & Heq & Hcalls & Hsleeps).
    { intros j Hj. cbn [initial_world call_count Nat.add]. now apply Hpre. }
    { cbn [Nat.add]. exact Hk. }
    cbn [initial_world call_count sleep_log List.length Nat.add] in *.
    rewrite (execute_exited uniform self grpc_call operation_name
               initial_world (Raise (ApiError err)) (after_call w') Hon).
    + cbn [fst snd after_call call_count sleep_log]. repeat split; lia.
    + rewrite (py_range_split _ k) by lia. rewrite Heq.
      apply retry_loop_api_error. now rewrite Hcalls.
  - subst k. rewrite execute_disabled by assumption.
    cbn [initial_world call_count]. rewrite Hcall. repeat split.
Qed.

Lemma api_error_of_call_is_reraised_witness :
  let self := mkClient true 3 200 5000 1.5 false [UNAVAILABLE] in
  let err := mkVortexApiError "already ours" None (Some "NOT_FOUND") None in
  let run :=
    VortexClient._execute_with_retry (V:=string) (fixed_uniform 0) self
      (side_effect
         [RaisesRpcError (mock_rpc_error UNAVAILABLE "Unavailable");
          RaisesVortexApiError err])
      "op" initial_world in
  fst run = Raise (ApiError err)
  /\ call_count (snd run) = 2
  /\ List.length (sleep_log (snd run)) = 1.
Proof.
  cbv zeta.
  apply (api_error_of_call_is_reraised (V:=string) (fixed_uniform 0)
           (mkClient true 3 200 5000 1.5 false [UNAVAILABLE])
           (side_effect
              [RaisesRpcError (mock_rpc_error UNAVAILABLE "Unavailable");
               RaisesVortexApiError
                 (mkVortexApiError "already ours" None (Some "NOT_FOUND")
                                   None)])
           "op" 1
           (mkVortexApiError "already ours" None (Some "NOT_FOUND") None)).
  - cbn. split; [lia|]. intros j Hj. destruct j as [|j]; [reflexivity|lia].
  - reflexivity.
Defined.

(** X3.  Whenever an attempt is made at all (retries disabled, or enabled
    with a non-negative [max_retries]), the executor sleeps exactly once
    between two consecutive invocations and never after the last one, and
    with retries enabled it makes at most [max_retries + 1] invocations. *)
Theorem one_sleep_between_attempts {V : Type} (uniform : JitterSource)
    (self : Client) (grpc_call : Callable V) (operation_name : string) :
  retries_enabled self = false \/ (0 <= max_retries self)%Z ->
  let w :=
    snd (VortexClient._execute_with_retry uniform self grpc_call
           operation_name initial_world) in
  call_count w = S (List.length (sleep_log w))
  /\ (retries_enabled self = true ->
      (Z.of_nat (call_count w) <= max_retries self + 1)%Z).
Proof.
  intros Hsome. cbv zeta. destruct (retries_enabled self) eqn:Hon.
  - destruct Hsome as [Hoff|Hmax]; [discriminate Hoff|].
    rewrite execute_in_loop_world by assumption.
    assert (Hrange : py_range (max_retries self + 1)
                     = map Z.of_nat
                         (seq 0 (S (Z.to_nat (max_retries self))))).
    { unfold py_range. f_equal. f_equal. lia. }
    destruct (retry_loop_exits uniform self grpc_call operation_name
                (Z.to_nat (max_retries self)) 0 None
                (initial_backoff_ms self) initial_world)
      as (r & w & Hloop); [cbn [Nat.add]; lia|].
    pose proof (retry_loop_accounting uniform self grpc_call operation_name
                  (map Z.of_nat (seq 0 (S (Z.to_nat (max_retries self)))))
                  None (initial_backoff_ms self) initial_world) as Hacc.
    rewrite Hrange, Hloop in *. destruct Hacc as (k & Hk & Hcalls & Hsleeps).
    rewrite length_map, length_seq in Hk.
    cbn [snd initial_world call_count sleep_log List.length Nat.add] in *.
    split; [lia|]. intros _. lia.
  - rewrite execute_disabled by assumption. cbn. split; [reflexivity|].
    intros Habs. discriminate Habs.
Qed.

Lemma one_sleep_between_attempts_witness :
  let self := mkClient true 2 50 5000 2 true [RESOURCE_EXHAUSTED] in
  let w :=
    snd (VortexClient._execute_with_retry (V:=string) (fixed_uniform 0.05)
           self
           (always (RaisesRpcError
              (mock_rpc_error RESOURCE_EXHAUSTED "Resource exhausted")))
           "op" initial_world) in
  (0 <= max_retries self)%Z
  /\ call_count w = S (List.length (sleep_log w))
  /\ (retries_enabled self = true ->
      (Z.of_nat (call_count w) <= max_retries self + 1)%Z).
Proof.
  cbv zeta. split; [cbn; lia|].
  apply (one_sleep_between_attempts (V:=string) (fixed_uniform 0.05)
           (mkClient true 2 50 5000 2 true [RESOURCE_EXHAUSTED])
           (always (RaisesRpcError
              (mock_rpc_error RESOURCE_EXHAUSTED "Resource exhausted")))
           "op").
  right. cbn. lia.
Defined.

Lemma negative_budget_reaches_fallback_witness :
  let self := mkClient true (-1) 200 5000 1.5 true [UNAVAILABLE] in
  retries_enabled self = true
  /\ (max_retries self < 0)%Z
  /\ VortexClient._execute_with_retry (V:=string) (fixed_uniform 0) self
       (always (Returns "never asked")) "op" initial_world
     = (Raise (VortexException
          "Failed to op after all retries, but no gRPC exception was captured."),
        initial_world).
Proof.
  cbv zeta. split; [reflexivity|]. split; [cbn; lia|].
  apply (proj1 (negative_budget_reaches_fallback (V:=string)
                  (fixed_uniform 0)
                  (mkClient true (-1) 200 5000 1.5 true [UNAVAILABLE])
                  (always (Returns "never asked")) "op"
                  eq_refl ltac:(cbn; lia))).
Defined.

(** The sleeps of a whole execution follow the worded schedule. *)
Lemma execute_on_schedule {V : Type} (uniform : JitterSource)
    (self : Client) (grpc_call : Callable V) (operation_name : string) :
  on_schedule uniform self
    (snd (VortexClient._execute_with_retry uniform self grpc_call
            operation_name initial_world)).
Proof.
  destruct (retries_enabled self) eqn:Hon.
  - rewrite execute_in_loop_world by assumption.
    apply (retry_loop_on_schedule uniform self grpc_call operation_name
             _ None initial_world).
    unfold on_schedule. cbn. now destruct (retry_jitter self).
  - rewrite execute_disabled by assumption.
    unfold on_schedule. cbn. now destruct (retry_jitter self).
Qed.

(** X5.  Without jitter, every sleep after the first lasts [b / 1000.0]
    seconds for a stored backoff [b] that is [max_backoff_ms] itself or
    strictly below it: past the first sleep the cap is never exceeded. *)
Theorem later_sleeps_capped_without_jitter {V : Type}
    (uniform : JitterSource) (self : Client) (grpc_call : Callable V)
    (operation_name : string) (k : nat) :
  retry_jitter self = false ->
  let w :=
    snd (VortexClient._execute_with_retry uniform self grpc_call
           operation_name initial_world) in
  S k < List.length (sleep_log w) ->
  exists b,
    nth (S k) (sleep_durations w) 0%float = PrimFloat.div b 1000
    /\ (b = max_backoff_ms self
        \/ PrimFloat.ltb b (max_backoff_ms self) = true).
Proof.
  intros Hjit. cbv zeta. intros Hk.
  destruct (execute_on_schedule uniform self grpc_call operation_name)
    as [Hsleeps _].
  rewrite Hsleeps.
  rewrite (nth_indep _ 0%float (spec_sleep_seconds uniform self 0))
    by now rewrite length_map, length_seq.
  rewrite map_nth, seq_nth by assumption. cbn [Nat.add].
  unfold spec_sleep_seconds. rewrite Hjit. cbn [spec_backoff_base].
  unfold py_min.
  destruct (PrimFloat.ltb
              (PrimFloat.mul (spec_backoff_base self k)
                             (backoff_multiplier self))
              (max_backoff_ms self)) eqn:Hlt.
  - eexists. split; [reflexivity|]. now right.
  - eexists. split; [reflexivity|]. now left.
Qed.

Lemma later_sleeps_capped_without_jitter_witness :
  let self := mkClient true 3 1000 2500 2 false [UNAVAILABLE] in
  let w :=
    snd (VortexClient._execute_with_retry (V:=string) (fixed_uniform 0) self
           (always (RaisesRpcError
                      (mock_rpc_error UNAVAILABLE "Unavailable")))
           "test_op_capped" initial_world) in
  retry_jitter self = false
  /\ 2 < List.length (sleep_log w)
  /\ exists b,
       nth 2 (sleep_durations w) 0%float = PrimFloat.div b 1000
       /\ (b = max_backoff_ms self
           \/ PrimFloat.ltb b (max_backoff_ms self) = true).
Proof.
  cbv zeta. split; [reflexivity|]. split; [vm_compute; lia|].
  apply (later_sleeps_capped_without_jitter (V:=string) (fixed_uniform 0)
           (mkClient true 3 1000 2500 2 false [UNAVAILABLE])
           (always (RaisesRpcError
                      (mock_rpc_error UNAVAILABLE "Unavailable")))
           "test_op_capped" 1 eq_refl).
  vm_compute. lia.
Defined.

(** * Properties of [VortexApiError] *)

Lemma append_empty_r (a : string) : a ++ "" = a.
Proof. induction a as [|ch a IH]; simpl; [reflexivity | now rewrite IH]. Qed.

Lemma append_same_prefix (a b : string) : a ++ b = a -> b = "".
Proof.
  intros Heq. destruct b as [|ch b]; [reflexivity|].
  exfalso. apply (append_longer_neq a (String ch b)); [discriminate|].
  now symmetry.
Qed.

(** X6.  The text of the [VortexApiError] that the retry helpers build from
    an RPC error [e] and a message: the message, then
    [" (Status Code: NAME)"] when [e] has a [code], then
    [" Details: TEXT"] when the detail text ([e.details()], or [str(e)]
    without such a method) is not empty. *)
Theorem str_of_error_built_from_rpc_error (msg : string) (e : RpcError) :
  VortexApiError__str__ (VortexApiError__init__ msg (Some e) None None)
  = msg
    ++ match rpc_code e with
       | Some code => " (Status Code: " ++ name code ++ ")"
       | None => ""
       end
    ++ (if detail_of e =? "" then "" else " Details: " ++ detail_of e).
Proof.
  rewrite api_error_of_rpc_error. unfold VortexApiError__str__.
  cbn [message status_code details]. unfold truthy.
  destruct (rpc_code e) as [code|]; cbn [option_map].
  - destruct (name code =? "") eqn:Hname.
    + apply String.eqb_eq in Hname. now apply name_nonempty in Hname.
    + cbn [negb]. destruct (detail_of e =? ""); cbn [negb];
        now rewrite ?append_empty_r, ?append_assoc.
  - destruct (detail_of e =? ""); cbn [negb];
      now rewrite ?append_empty_r.
Qed.

(** X7.  The text of any [VortexApiError] starts with its message, and it
    is the message alone exactly when neither a status code nor details
    are there (absent or empty). *)
Theorem str_of_api_error_extends_message (err : VortexApiError) :
  (exists tail, VortexApiError__str__ err = message err ++ tail)
  /\ (VortexApiError__str__ err = message err
      <-> truthy (status_code err) = false
          /\ truthy (details err) = false).
Proof.
  unfold VortexApiError__str__.
  destruct (status_code err) as [sc|] eqn:Hsc;
    destruct (details err) as [d|] eqn:Hd.
  all: try destruct (truthy (Some sc)) eqn:Tsc.
  all: try destruct (truthy (Some d)) eqn:Td.
  all: cbn [truthy]; split;
    [ first [ exists ""; now rewrite append_empty_r
            | eexists; rewrite ?append_assoc; reflexivity ]
    | split;
      [ intros Heq; try (split; reflexivity);
        rewrite ?append_assoc in Heq; apply append_same_prefix in Heq;
        discriminate Heq
      | intros [H1 H2]; try reflexivity; discriminate ] ].
Qed.

(** * Properties of the conversions *)

(** X8.  A distance metric survives the way to the wire and back.  In the
    other direction a wire value survives exactly when it is [COSINE] or
    [EUCLIDEAN_L2]: the unspecified value and every unknown integer come
    back as [COSINE]. *)
Theorem distance_metric_round_trip :
  (forall metric,
     conversions.grpc_to_pydantic_distance_metric
       (conversions.pydantic_to_grpc_distance_metric metric) = metric)
  /\ (forall metric_pb,
        conversions.pydantic_to_grpc_distance_metric
          (conversions.grpc_to_pydantic_distance_metric metric_pb)
        = metric_pb
        <-> metric_pb = common_pb2.COSINE
            \/ metric_pb = common_pb2.EUCLIDEAN_L2)
  /\ (forall metric_pb,
        metric_pb <> common_pb2.EUCLIDEAN_L2 ->
        conversions.grpc_to_pydantic_distance_metric metric_pb
        = models.COSINE).
Proof.
  split; [|split].
  - intros []; reflexivity.
  - intros []; cbn; split; intros H;
      try reflexivity; try discriminate H; auto;
      destruct H as [H|H]; discriminate H.
  - intros [] H; try reflexivity. now elim H.
Qed.

(** X9.  A wire status code is reported as [OK] only when it is [OK]; the
    unspecified value and every unknown integer are reported as [ERROR]. *)
Theorem status_code_ok_only_for_ok (status_code_pb : common_pb2.StatusCode) :
  (conversions.grpc_to_pydantic_status_code status_code_pb = models.OK
   <-> status_code_pb = common_pb2.OK)
  /\ (status_code_pb = common_pb2.STATUS_CODE_UNSPECIFIED
      \/ (exists number,
            status_code_pb = common_pb2.StatusCode_other number) ->
      conversions.grpc_to_pydantic_status_code status_code_pb
      = models.ERROR).
Proof.
  split.
  - destruct status_code_pb; cbn; split; intros H;
      try reflexivity; discriminate H.
  - intros [->|[number ->]]; reflexivity.
Qed.

(** ** Induction over nested values *)

Lemma PayloadValue_nested_ind (P : models.PayloadValue -> Prop) :
  P models.PyNone ->
  (forall b, P (models.PyBool b)) ->
  (forall n, P (models.PyInt n)) ->
  (forall x, P (models.PyFloat x)) ->
  (forall s, P (models.PyStr s)) ->
  (forall items, Forall P items -> P (models.PyList items)) ->
  (forall items, Forall (fun kv => P (snd kv)) items ->
                 P (models.PyDict items)) ->
  (forall str, P (models.PyOther str)) ->
  forall v, P v.
Proof.
  intros HNone HBool HInt HFloat HStr HList HDict HOther.
  fix IH 1. intros [|b|n|x|s|items|items|str].
  - exact HNone.
  - apply HBool.
  - apply HInt.
  - apply HFloat.
  - apply HStr.
  - apply HList. induction items as [|item items IHitems];
      constructor; [apply IH | exact IHitems].
  - apply HDict. induction items as [|[key item] items IHitems];
      constructor; [apply IH | exact IHitems].
  - apply HOther.
Qed.

Lemma Value_nested_ind (P : struct_pb2.Value -> Prop) :
  P struct_pb2.kind_unset ->
  P struct_pb2.null_value ->
  (forall x, P (struct_pb2.number_value x)) ->
  (forall s, P (struct_pb2.string_value s)) ->
  (forall b, P (struct_pb2.bool_value b)) ->
  (forall fields, Forall (fun kv => P (snd kv)) fields ->
                  P (struct_pb2.struct_value fields)) ->
  (forall values, Forall P values -> P (struct_pb2.list_value values)) ->
  forall g, P g.
Proof.
  intros HUnset HNull HNum HStr HBool HStruct HList.
  fix IH 1. intros [| |x|s|b|fields|values].
  - exact HUnset.
  - exact HNull.
  - apply HNum.
  - apply HStr.
  - apply HBool.
  - apply HStruct. induction fields as [|[key item] fields IHfields];
      constructor; [apply IH | exact IHfields].
  - apply HList. induction values as [|item values IHvalues];
      constructor; [apply IH | exact IHvalues].
Qed.

(** ** [try_map] *)

Lemma try_map_ok_map {A B C : Type} (f : A -> PyResult B) (h : B -> C)
    (k : A -> C) (xs : list A) :
  Forall (fun x => forall y, f x = Ok y -> h y = k x) xs ->
  forall ys, try_map f xs = Ok ys -> map h ys = map k xs.
Proof.
  induction 1 as [|x xs Hx _ IH]; intros ys Hys; cbn in Hys.
  - now injection Hys as <-.
  - destruct (f x) as [y|e] eqn:Hy; [|discriminate Hys].
    destruct (try_map f xs) as [ys'|e]; [|discriminate Hys].
    injection Hys as <-. cbn. now rewrite (Hx y eq_refl), (IH ys' eq_refl).
Qed.

Lemma try_map_all_ok {A B : Type} (f : A -> PyResult B) (g : A -> B)
    (xs : list A) :
  Forall (fun x => f x = Ok (g x)) xs -> try_map f xs = Ok (map g xs).
Proof.
  induction 1 as [|x xs Hx _ IH]; cbn; [reflexivity|].
  now rewrite Hx, IH.
Qed.


Lemma try_map_after_map {A B : Type} (f : A -> PyResult B) (g : B -> A)
    (ys : list B) :
  Forall (fun y => f (g y) = Ok y) ys -> try_map f (map g ys) = Ok ys.
Proof.
  induction 1 as [|y ys Hy _ IH]; cbn; [reflexivity|].
  now rewrite Hy, IH.
Qed.

(** ** The two value conversions *)


Lemma _pydantic_value_to_grpc_list (item : models.PayloadValue) items :
  conversions._pydantic_value_to_grpc (models.PyList (item :: items))
  = match try_map conversions._pydantic_value_to_grpc (item :: items) with
    | Ok values => Ok (struct_pb2.list_value values)
    | Throws e => Throws e
    end.
Proof. reflexivity. Qed.

Lemma _pydantic_value_to_grpc_dict
    (entry : models.Str * models.PayloadValue) items :
  conversions._pydantic_value_to_grpc (models.PyDict (entry :: items))
  = match try_map entry_to_grpc (entry :: items) with
    | Ok fields => Ok (struct_pb2.struct_value fields)
    | Throws e => Throws e
    end.
Proof. reflexivity. Qed.

(** An entry that is converted keeps its key, which is then a text. *)
Lemma entry_to_grpc_ok (key : models.Str) (value : models.PayloadValue)
    (entry : string * struct_pb2.Value) :
  entry_to_grpc (key, value) = Ok entry ->
  key = models.Text (fst entry)
  /\ conversions._pydantic_value_to_grpc value = Ok (snd entry).
Proof.
  cbn. destruct key as [text|code_points]; cbn; [|discriminate].
  destruct (conversions._pydantic_value_to_grpc value) as [w|e];
    [|discriminate].
  intros Hentry. injection Hentry as <-. now split.
Qed.

(** X10.  Whenever [_pydantic_value_to_grpc] succeeds, converting its
    result back with [_grpc_value_to_pydantic] gives the value with, at any
    depth, every integer replaced by the float it converts to, every empty
    list or dictionary replaced by [None] and every object of another type
    replaced by its [str]; nothing else changes. *)
Theorem payload_value_round_trip (v : models.PayloadValue) :
  forall g,
    conversions._pydantic_value_to_grpc v = Ok g ->
    conversions._grpc_value_to_pydantic g = after_round_trip v.
Proof.
  induction v as [|b|n|x|s|items IH|items IH|str]
    using PayloadValue_nested_ind; intros g Hg.
  - injection Hg as <-. reflexivity.
  - injection Hg as <-. reflexivity.
  - cbn [conversions._pydantic_value_to_grpc] in Hg.
    unfold float_of_int in Hg.
    destruct (PrimFloat.is_infinity
                (SF2Prim (binary_normalize prec emax n 0 false)));
      [discriminate Hg|].
    injection Hg as <-. reflexivity.
  - injection Hg as <-. reflexivity.
  - destruct s as [text|code_points]; [|discriminate Hg].
    injection Hg as <-. reflexivity.
  - destruct items as [|item items]; [injection Hg as <-; reflexivity|].
    rewrite _pydantic_value_to_grpc_list in Hg.
    destruct (try_map _ (item :: items)) as [values|e] eqn:Hvalues;
      [|discriminate Hg].
    injection Hg as <-. cbn [conversions._grpc_value_to_pydantic].
    change (after_round_trip (models.PyList (item :: items)))
      with (models.PyList (map after_round_trip (item :: items))).
    f_equal. now apply (try_map_ok_map _ _ _ _ IH).
  - destruct items as [|entry items]; [injection Hg as <-; reflexivity|].
    rewrite _pydantic_value_to_grpc_dict in Hg.
    destruct (try_map _ (entry :: items)) as [fields|e] eqn:Hfields;
      [|discriminate Hg].
    injection Hg as <-. cbn [conversions._grpc_value_to_pydantic].
    change (after_round_trip (models.PyDict (entry :: items)))
      with (models.PyDict
              (map (fun kv => (fst kv, after_round_trip (snd kv)))
                   (entry :: items))).
    f_equal.
    apply (try_map_ok_map entry_to_grpc
             (fun kv => (models.Text (fst kv),
                         conversions._grpc_value_to_pydantic (snd kv)))
             (fun kv => (fst kv, after_round_trip (snd kv)))
             (entry :: items));
      [|exact Hfields].
    eapply Forall_impl; [|exact IH].
    intros [key value] Hvalue converted Hentry.
    apply entry_to_grpc_ok in Hentry as [-> Hconverted].
    cbn [fst snd] in *. now rewrite (Hvalue _ Hconverted).
  - destruct str as [text|code_points]; [|discriminate Hg].
    injection Hg as <-. reflexivity.
Qed.

Lemma payload_value_round_trip_witness :
  let v :=
    models.PyDict
      [(models.Text "list_field",
        models.PyList [models.PyStr "a"; models.PyInt 1;
                       models.PyBool false; models.PyNone]);
       (models.Text "empty", models.PyList [])] in
  let g :=
    struct_pb2.struct_value
      [("list_field",
        struct_pb2.list_value
          [struct_pb2.string_value "a"; struct_pb2.number_value 1;
           struct_pb2.bool_value false; struct_pb2.null_value]);
       ("empty", struct_pb2.kind_unset)] in
  conversions._pydantic_value_to_grpc v = Ok g
  /\ conversions._grpc_value_to_pydantic g
     = models.PyDict
         [(models.Text "list_field",
           models.PyList [models.PyStr "a"; models.PyFloat 1;
                          models.PyBool false; models.PyNone]);
          (models.Text "empty", models.PyNone)].
Proof.
  cbv zeta. split; [reflexivity|].
  apply (payload_value_round_trip
           (models.PyDict
              [(models.Text "list_field",
                models.PyList [models.PyStr "a"; models.PyInt 1;
                               models.PyBool false; models.PyNone]);
               (models.Text "empty", models.PyList [])])).
  reflexivity.
Defined.




(** The first exception in the order of evaluation is the one raised: the
    items of a list in order, and the key of a dictionary entry before its
    value. *)
Example first_exception_is_raised :
  conversions._pydantic_value_to_grpc
    (models.PyList [models.PyStr (models.WithSurrogates [55296%N]);
                    models.PyInt (2 ^ 1024)])
  = Throws UnicodeEncodeError
  /\ conversions._pydantic_value_to_grpc
       (models.PyList [models.PyInt (2 ^ 1024);
                       models.PyStr (models.WithSurrogates [55296%N])])
     = Throws OverflowError
  /\ conversions._pydantic_value_to_grpc
       (models.PyDict [(models.WithSurrogates [55296%N],
                        models.PyInt (2 ^ 1024))])
     = Throws UnicodeEncodeError.
Proof. repeat split; vm_compute; reflexivity. Qed.

(** X13.  In the other direction, a [Value] whose kinds are all set and
    whose structs and lists are not empty, at any depth, is rebuilt as it
    was from its Python value. *)
Theorem populated_value_round_trip (g : struct_pb2.Value) :
  populated g = true ->
  conversions._pydantic_value_to_grpc
    (conversions._grpc_value_to_pydantic g) = Ok g.
Proof.
  induction g as [| |x|s|b|fields IH|values IH] using Value_nested_ind;
    intros Hpop; try discriminate Hpop; try reflexivity.
  - destruct fields as [|[key value] fields]; [discriminate Hpop|].
    change (populated (struct_pb2.struct_value ((key, value) :: fields)))
      with (forallb (fun kv => populated (snd kv)) ((key, value) :: fields))
      in Hpop.
    rewrite forallb_forall in Hpop.
    change (conversions._grpc_value_to_pydantic
              (struct_pb2.struct_value ((key, value) :: fields)))
      with (models.PyDict
              (map (fun kv =>
                      (models.Text (fst kv),
                       conversions._grpc_value_to_pydantic (snd kv)))
                   ((key, value) :: fields))).
    cbn [map]. rewrite _pydantic_value_to_grpc_dict.
    change ((models.Text (fst (key, value)),
             conversions._grpc_value_to_pydantic (snd (key, value)))
            :: map (fun kv =>
                      (models.Text (fst kv),
                       conversions._grpc_value_to_pydantic (snd kv)))
                   fields)
      with (map (fun kv =>
                   (models.Text (fst kv),
                    conversions._grpc_value_to_pydantic (snd kv)))
                ((key, value) :: fields)).
    rewrite try_map_after_map; [reflexivity|].
    apply Forall_forall. intros [k w] Hin. rewrite Forall_forall in IH.
    pose proof (IH _ Hin (Hpop _ Hin)) as Hw. cbn [fst snd] in *.
    cbn [as_protobuf_string]. now rewrite Hw.
  - destruct values as [|value values]; [discriminate Hpop|].
    change (populated (struct_pb2.list_value (value :: values)))
      with (forallb populated (value :: values)) in Hpop.
    rewrite forallb_forall in Hpop.
    change (conversions._grpc_value_to_pydantic
              (struct_pb2.list_value (value :: values)))
      with (models.PyList
              (map conversions._grpc_value_to_pydantic (value :: values))).
    cbn [map]. rewrite _pydantic_value_to_grpc_list.
    change (conversions._grpc_value_to_pydantic value
            :: map conversions._grpc_value_to_pydantic values)
      with (map conversions._grpc_value_to_pydantic (value :: values)).
    rewrite try_map_after_map; [reflexivity|].
    apply Forall_forall. intros w Hin. rewrite Forall_forall in IH.
    exact (IH _ Hin (Hpop _ Hin)).
Qed.

Lemma populated_value_round_trip_witness :
  let g :=
    struct_pb2.struct_value
      [("nested_str", struct_pb2.string_value "world");
       ("nested_int", struct_pb2.number_value 789)] in
  populated g = true
  /\ conversions._pydantic_value_to_grpc
       (conversions._grpc_value_to_pydantic g) = Ok g.
Proof.
  cbv zeta. split; [reflexivity|].
  apply (populated_value_round_trip
           (struct_pb2.struct_value
              [("nested_str", struct_pb2.string_value "world");
               ("nested_int", struct_pb2.number_value 789)])).
  reflexivity.
Defined.

(** ** Filters and search parameters *)

(** X14.  [pydantic_to_grpc_filter] returns [None] exactly for no filter, a
    filter without [must_match_exact] and a filter whose [must_match_exact]
    is empty; a filter message that it returns has the keys of
    [must_match_exact], which are then at least one. *)
Theorem filter_omitted_iff_no_condition (filter_model : option models.Filter) :
  (conversions.pydantic_to_grpc_filter filter_model = Ok None
   <-> filter_model = None
       \/ exists f,
            filter_model = Some f
            /\ (models.must_match_exact f = None
                \/ models.must_match_exact f = Some []))
  /\ (forall grpc_filter,
        conversions.pydantic_to_grpc_filter filter_model
        = Ok (Some grpc_filter) ->
        exists f items,
          filter_model = Some f
          /\ models.must_match_exact f = Some items
          /\ items <> []
          /\ map (fun kv => models.Text (fst kv))
                 (common_pb2.must_match_exact grpc_filter)
             = map fst items).
Proof.
  unfold conversions.pydantic_to_grpc_filter.
  destruct filter_model as [[[[|entry items]|]]|]; cbn [models.must_match_exact].
  - split; [split; [intros _; right; eexists; eauto | reflexivity]|].
    intros g Hg. discriminate Hg.
  - destruct (try_map entry_to_grpc (entry :: items)) as [entries|e] eqn:Hmap.
    + split.
      * split; [intros H; discriminate H|].
        intros [H|(f & Hf & [H|H])]; try discriminate H;
          injection Hf as <-; discriminate H.
      * intros g Hg. injection Hg as <-.
        exists (models.mkFilter (Some (entry :: items))), (entry :: items).
        repeat split; [discriminate|].
        cbn [common_pb2.must_match_exact].
        apply (try_map_ok_map entry_to_grpc
                 (fun kv => models.Text (fst kv)) fst (entry :: items));
          [|exact Hmap].
        apply Forall_forall. intros [key value] _ converted Hentry.
        now apply entry_to_grpc_ok in Hentry as [-> _].
    + split.
      * split; [intros H; discriminate H|].
        intros [H|(f & Hf & [H|H])]; try discriminate H;
          injection Hf as <-; discriminate H.
      * intros g Hg. discriminate Hg.
  - split; [split; [intros _; right; eexists; eauto | reflexivity]|].
    intros g Hg. discriminate Hg.
  - split; [split; [intros _; now left | reflexivity]|].
    intros g Hg. discriminate Hg.
Qed.

(** X15.  [pydantic_to_grpc_search_params] returns [None] exactly for no
    parameters and for parameters without [ef_search]; a message that it
    returns has [ef_search] set, to the value given: a message with no
    field set is never returned. *)
Theorem search_params_omitted_iff_unset
    (params : option models.SearchParams) :
  (conversions.pydantic_to_grpc_search_params params = Ok None
   <-> params = None
       \/ exists p, params = Some p /\ models.ef_search p = None)
  /\ (forall grpc_params,
        conversions.pydantic_to_grpc_search_params params
        = Ok (Some grpc_params) ->
        exists p n,
          params = Some p
          /\ models.ef_search p = Some n
          /\ common_pb2.ef_search grpc_params = Some n).
Proof.
  unfold conversions.pydantic_to_grpc_search_params.
  destruct params as [[[n|]]|]; cbn [models.ef_search].
  - destruct ((0 <=? n) && (n <? 2 ^ 32))%Z; split.
    + split; [intros H; discriminate H|].
      intros [H|(p & Hp & H)]; [discriminate H|].
      injection Hp as <-. discriminate H.
    + intros g Hg. injection Hg as <-. now eexists _, n.
    + split; [intros H; discriminate H|].
      intros [H|(p & Hp & H)]; [discriminate H|].
      injection Hp as <-. discriminate H.
    + intros g Hg. discriminate Hg.
  - split; [split; [intros _; right; eexists; eauto | reflexivity]|].
    intros g Hg. discriminate Hg.
  - split; [split; [intros _; now left | reflexivity]|].
    intros g Hg. discriminate Hg.
Qed.

(** * Properties of [delete_points] *)

(** The blocking executor when the first attempt settles the call. *)
Lemma execute_first_attempt {V : Type} (uniform : JitterSource)
    (self : Client) (grpc_call : Callable V) (operation_name : string) :
  retries_enabled self = false \/ (0 <= max_retries self)%Z ->
  (forall v, grpc_call 0 = Returns v ->
     VortexClient._execute_with_retry uniform self grpc_call operation_name
                                      initial_world
     = (Return v, mkWorld 1 0 []))
  /\ (forall e, grpc_call 0 = RaisesRpcError e ->
        is_retryable_failure self (RaisesRpcError (V:=V) e) = false ->
        VortexClient._execute_with_retry uniform self grpc_call
                                         operation_name initial_world
        = (Raise (ApiError
             (VortexApiError__init__ ("Failed to " ++ operation_name)
                                     (Some e) None None)),
           mkWorld 1 0 [])).
Proof.
  intros Hsome. destruct (retries_enabled self) eqn:Hon.
  - destruct Hsome as [Hoff|Hmax]; [discriminate Hoff|]. split.
    + intros v Hcall. apply execute_exited; [assumption|].
      rewrite (py_range_split _ 0) by lia. cbn [seq map app].
      exact (retry_loop_returns uniform self grpc_call operation_name
               _ _ _ _ initial_world v Hcall).
    + intros e Hcall Hno. apply execute_exited; [assumption|].
      rewrite (py_range_split _ 0) by lia. cbn [seq map app].
      apply (retry_loop_fails uniform self grpc_call operation_name
               _ _ _ _ initial_world e Hcall).
      now rewrite Hno.
  - split.
    + intros v Hcall. rewrite execute_disabled by assumption.
      cbn [initial_world call_count]. now rewrite Hcall.
    + intros e Hcall _. rewrite execute_disabled by assumption.
      cbn [initial_world call_count]. now rewrite Hcall.
Qed.

(** X16.  When the server answers the first attempt with a response whose
    [overall_error] is not empty, [delete_points] raises the
    [VortexApiError] ["Overall error during delete: {overall_error}"]
    although the call succeeded: the stub is invoked once, nothing is
    retried and the statuses of the response are not returned. *)
Theorem delete_points_overall_error (uniform : JitterSource) (self : Client)
    (connection : Connection) (collection_name : string)
    (ids : list string) (wait_flush : option bool)
    DeletePoints (response : points_service_pb2.DeletePointsResponse) :
  _points_stub connection = Some DeletePoints ->
  retries_enabled self = false \/ (0 <= max_retries self)%Z ->
  DeletePoints
    (points_service_pb2.mkDeletePointsRequest collection_name ids wait_flush)
    (timeout connection) 0 = Returns response ->
  points_service_pb2.overall_error response <> "" ->
  delete_points uniform self connection collection_name ids wait_flush
                initial_world
  = (MethodRaise (OverallError
       ("Overall error during delete: "
        ++ points_service_pb2.overall_error response)),
     mkWorld 1 0 []).
Proof.
  intros Hstub Hsome Hcall Herr. unfold delete_points. rewrite Hstub.
  unfold bind at 1.
  rewrite (proj1 (execute_first_attempt uniform self _ _ Hsome) _ Hcall).
  apply String.eqb_neq in Herr. now rewrite Herr.
Qed.

Lemma delete_points_overall_error_witness :
  let response :=
    points_service_pb2.mkDeletePointsResponse
      [common_pb2.mkPointOperationStatus "dp1" common_pb2.OK None]
      "WAL is full" in
  let connection :=
    mkConnection None (Some (fun _ _ => always (Returns response))) in
  let self := VortexClient.__init__ true 3 200 5000 1.5 true None in
  points_service_pb2.overall_error response <> ""
  /\ delete_points (fixed_uniform 0) self connection "del_coll" ["dp1"] None
                   initial_world
     = (MethodRaise (OverallError "Overall error during delete: WAL is full"),
        mkWorld 1 0 []).
Proof.
  cbv zeta. split; [discriminate|].
  apply (delete_points_overall_error (fixed_uniform 0)
           (VortexClient.__init__ true 3 200 5000 1.5 true None)
           (mkConnection None
              (Some (fun _ _ =>
                 always (Returns
                   (points_service_pb2.mkDeletePointsResponse
                      [common_pb2.mkPointOperationStatus "dp1"
                                                         common_pb2.OK None]
                      "WAL is full")))))
           "del_coll" ["dp1"] None
           (fun _ _ =>
              always (Returns
                (points_service_pb2.mkDeletePointsResponse
                   [common_pb2.mkPointOperationStatus "dp1"
                                                      common_pb2.OK None]
                   "WAL is full")))
           (points_service_pb2.mkDeletePointsResponse
              [common_pb2.mkPointOperationStatus "dp1" common_pb2.OK None]
              "WAL is full")
           eq_refl);
    [right; cbn; lia | reflexivity | discriminate].
Defined.

(** X17.  When the first attempt succeeds with an empty [overall_error],
    [delete_points] returns one status per status of the response, in the
    same order and for the same point, with the same error message, and a
    status is [OK] exactly when the server said [OK]. *)
Theorem delete_points_returns_statuses (uniform : JitterSource)
    (self : Client) (connection : Connection) (collection_name : string)
    (ids : list string) (wait_flush : option bool)
    DeletePoints (response : points_service_pb2.DeletePointsResponse) :
  _points_stub connection = Some DeletePoints ->
  retries_enabled self = false \/ (0 <= max_retries self)%Z ->
  DeletePoints
    (points_service_pb2.mkDeletePointsRequest collection_name ids wait_flush)
    (timeout connection) 0 = Returns response ->
  points_service_pb2.overall_error response = "" ->
  exists statuses,
    delete_points uniform self connection collection_name ids wait_flush
                  initial_world
    = (MethodReturn statuses, mkWorld 1 0 [])
    /\ Forall2
         (fun (s : models.PointOperationStatus)
              (status_pb : common_pb2.PointOperationStatus) =>
            models.point_id s = common_pb2.point_id status_pb
            /\ models.error_message s = common_pb2.error_message status_pb
            /\ (models.status_code s = models.OK
                <-> common_pb2.status_code status_pb = common_pb2.OK))
         statuses (points_service_pb2.statuses response).
Proof.
  intros Hstub Hsome Hcall Herr. unfold delete_points. rewrite Hstub.
  unfold bind at 1.
  rewrite (proj1 (execute_first_attempt uniform self _ _ Hsome) _ Hcall).
  rewrite Herr. cbn [String.eqb negb]. eexists. split; [reflexivity|].
  induction (points_service_pb2.statuses response) as [|status_pb rest IH];
    cbn [map]; constructor; [|exact IH].
  cbn. repeat split;
    destruct (common_pb2.status_code status_pb); cbn; intros H;
    try reflexivity; discriminate H.
Qed.

Lemma delete_points_returns_statuses_witness :
  let response :=
    points_service_pb2.mkDeletePointsResponse
      [common_pb2.mkPointOperationStatus "dp1" common_pb2.OK None;
       common_pb2.mkPointOperationStatus
         "dp2" (common_pb2.StatusCode_other 99) (Some "unknown")]
      "" in
  let connection :=
    mkConnection None (Some (fun _ _ => always (Returns response))) in
  let self := VortexClient.__init__ true 3 200 5000 1.5 true None in
  (0 <= max_retries self)%Z
  /\ exists statuses,
       delete_points (fixed_uniform 0) self connection "del_coll"
                     ["dp1"; "dp2"] None initial_world
       = (MethodReturn statuses, mkWorld 1 0 [])
       /\ Forall2
            (fun (s : models.PointOperationStatus)
                 (status_pb : common_pb2.PointOperationStatus) =>
               models.point_id s = common_pb2.point_id status_pb
               /\ models.error_message s
                  = common_pb2.error_message status_pb
               /\ (models.status_code s = models.OK
                   <-> common_pb2.status_code status_pb = common_pb2.OK))
            statuses (points_service_pb2.statuses response).
Proof.
  cbv zeta. split; [cbn; lia|].
  eapply (delete_points_returns_statuses (fixed_uniform 0)
            (VortexClient.__init__ true 3 200 5000 1.5 true None)
            (mkConnection None
               (Some (fun _ _ =>
                  always (Returns
                    (points_service_pb2.mkDeletePointsResponse
                       [common_pb2.mkPointOperationStatus
                          "dp1" common_pb2.OK None;
                        common_pb2.mkPointOperationStatus
                          "dp2" (common_pb2.StatusCode_other 99)
                          (Some "unknown")]
                       "")))))
            "del_coll" ["dp1"; "dp2"] None);
    [reflexivity | right; cbn; lia | reflexivity | reflexivity].
Defined.

(** X18.  A failure of the first attempt that the retry helper does not
    retry leaves [delete_points] as the [VortexApiError] of the helper,
    with the message ["Failed to delete points from '{collection_name}'"]
    and the RPC error wrapped: the handlers of the method do not wrap it
    again.  Without a stub the method raises
    [VortexConnectionError("Client not connected.")] and invokes
    nothing. *)
Theorem delete_points_lets_api_error_through (uniform : JitterSource)
    (self : Client) (connection : Connection) (collection_name : string)
    (ids : list string) (wait_flush : option bool) :
  (forall DeletePoints e,
     _points_stub connection = Some DeletePoints ->
     retries_enabled self = false \/ (0 <= max_retries self)%Z ->
     DeletePoints
       (points_service_pb2.mkDeletePointsRequest collection_name ids
                                                 wait_flush)
       (timeout connection) 0 = RaisesRpcError e ->
     is_retryable_failure self
       (RaisesRpcError (V:=points_service_pb2.DeletePointsResponse) e)
     = false ->
     delete_points uniform self connection collection_name ids wait_flush
                   initial_world
     = (MethodRaise (FromRetryHelper (ApiError
          (VortexApiError__init__
             ("Failed to delete points from '" ++ collection_name ++ "'")
             (Some e) None None))),
        mkWorld 1 0 []))
  /\ (_points_stub connection = None ->
      forall w,
        delete_points uniform self connection collection_name ids
                      wait_flush w
        = (MethodRaise (VortexConnectionError "Client not connected."), w)).
Proof.
  split.
  - intros DeletePoints e Hstub Hsome Hcall Hno.
    unfold delete_points. rewrite Hstub. unfold bind at 1.
    rewrite (proj2 (execute_first_attempt uniform self _ _ Hsome)
               e Hcall Hno).
    reflexivity.
  - intros Hstub w. unfold delete_points. now rewrite Hstub.
Qed.

Lemma delete_points_lets_api_error_through_witness :
  let e := mock_rpc_error NOT_FOUND "no such collection" in
  let connection :=
    mkConnection None (Some (fun _ _ => always (RaisesRpcError e))) in
  let self := VortexClient.__init__ true 3 200 5000 1.5 true None in
  delete_points (fixed_uniform 0) self connection "del_coll" ["dp1"] None
                initial_world
  = (MethodRaise (FromRetryHelper (ApiError
       (mkVortexApiError "Failed to delete points from 'del_coll'"
                         (Some e) (Some "NOT_FOUND")
                         (Some "no such collection")))),
     mkWorld 1 0 []).
Proof.
  cbv zeta.
  apply (proj1 (delete_points_lets_api_error_through (fixed_uniform 0)
                  (VortexClient.__init__ true 3 200 5000 1.5 true None)
                  (mkConnection None
                     (Some (fun _ _ =>
                        always (RaisesRpcError
                          (mock_rpc_error NOT_FOUND "no such collection")))))
                  "del_coll" ["dp1"] None)
               (fun _ _ =>
                  always (RaisesRpcError
                    (mock_rpc_error NOT_FOUND "no such collection")))
               (mock_rpc_error NOT_FOUND "no such collection"));
    [reflexivity | right; cbn; lia | reflexivity | reflexivity].
Defined.

(** X19.  A collection is reported as [YELLOW], [RED], [OPTIMIZING] or
    [CREATING] only when the server sent exactly that status; [GREEN] is
    reported for [GREEN], for the unspecified value and for every unknown
    integer. *)
Theorem collection_status_not_green_is_exact
    (status_pb : collections_service_pb2.CollectionStatus) :
  (conversions.grpc_to_pydantic_collection_status status_pb = models.YELLOW
   <-> status_pb = collections_service_pb2.YELLOW)
  /\ (conversions.grpc_to_pydantic_collection_status status_pb = models.RED
      <-> status_pb = collections_service_pb2.RED)
  /\ (conversions.grpc_to_pydantic_collection_status status_pb
      = models.OPTIMIZING
      <-> status_pb = collections_service_pb2.OPTIMIZING)
  /\ (conversions.grpc_to_pydantic_collection_status status_pb
      = models.CREATING
      <-> status_pb = collections_service_pb2.CREATING)
  /\ (conversions.grpc_to_pydantic_collection_status status_pb = models.GREEN
      <-> status_pb = collections_service_pb2.GREEN
          \/ status_pb = collections_service_pb2.COLLECTION_STATUS_UNSPECIFIED
          \/ exists number,
               status_pb
               = collections_service_pb2.CollectionStatus_other number).
Proof.
  destruct status_pb; cbn; repeat split; intros H;
    try reflexivity; try discriminate H; eauto;
    try (destruct H as [H|[H|[number H]]]; discriminate H).
Qed.
